(** * Shopping-cart chatbot: cart, order, catalog search and graph nodes

    A shallow embedding of [models/product.py], [models/cart.py],
    [models/order.py], [app/services/catalog_service.py], [graph/state.py],
    [graph/edges.py] and [graph/nodes.py], with the properties the
    specification states about them.

    Conventions.
    - A Python [str] is a [string]; [int] is [Z].
    - What Python itself provides and the repository only calls ([float]
      arithmetic, [round], float formatting, [str.lower], [str.strip],
      [difflib.SequenceMatcher.ratio], [int(str)]) is the interface
      [PyRuntime]; every definition below is written against it.
    - A [dict] is an insertion-ordered association list ([pydict]).
    - Objects that are mutated in place and may be aliased (the
      [ShoppingCart] of a session, the copy an [Order] keeps) live in a
      store indexed by locations; methods are state transformers that
      say what the object looks like afterwards, also when they raise. *)

From stdpp Require Import gmap strings list fin_maps pretty sorting.
From Stdlib Require Import ZArith Lia Ascii.

Open Scope Z_scope.


(** ** The Python runtime the code relies on *)

Class PyRuntime := {
  float : Type;
  (** [0.0], and what [sum] starts from *)
  fzero : float;
  (** [x * n] for an [int] [n] *)
  fmul_int : float → Z → float;
  (** [x * y] *)
  fmul : float → float → float;
  (** the builtin [sum] over floats *)
  fsum : list float → float;
  (** [x < y] *)
  flt : float → float → bool;
  (** the literal written with one decimal: [ftenths 7] is [0.7] *)
  ftenths : Z → float;
  (** [round(x, 2)] *)
  round2 : float → float;
  (** [f"{x:.2f}"] and [str(x)] *)
  fmt2 : float → string;
  fstr : float → string;
  (** [s.lower()], [s.upper()], [s.strip()] *)
  lower : string → string;
  upper : string → string;
  strip : string → string;
  (** [SequenceMatcher(None, a, b).ratio()] *)
  ratio : string → string → float;
  (** [int(s)], [None] when it raises [ValueError] *)
  py_int : string → option Z;

  (** rounding to two decimals twice is rounding once *)
  round2_idem : ∀ x, round2 (round2 x) = round2 x;
  (** [<] is a strict weak order on the floats the program meets *)
  flt_irrefl : ∀ x, flt x x = false;
  flt_trans : ∀ x y z, flt x y = true → flt y z = true → flt x z = true;
  flt_negtrans : ∀ x y z, flt x y = false → flt y z = false → flt x z = false;
  (** non-negative values stay non-negative *)
  fsum_nonneg : ∀ xs, Forall (λ x, flt x fzero = false) xs → flt (fsum xs) fzero = false;
  fmul_int_nonneg : ∀ x (n : Z), flt x fzero = false → (0 ≤ n)%Z → flt (fmul_int x n) fzero = false;
  round2_nonneg : ∀ x, flt x fzero = false → flt (round2 x) fzero = false;
  (** there is nothing to strip from the empty string, nor from a
      string that was stripped *)
  strip_empty : strip "" = "";
  strip_idem : ∀ s, strip (strip s) = strip s;
}.

(** [x >= y] and [x > y] on floats *)
Definition fge `{PyRuntime} (x y : float) : bool := negb (flt x y).
Definition fgt `{PyRuntime} (x y : float) : bool := flt y x.

(** [max(a, b)] and [max(a, b, c)]: the first of the largest arguments *)
Definition fmax2 `{PyRuntime} (a b : float) : float := if fgt b a then b else a.
Definition fmax3 `{PyRuntime} (a b c : float) : float := fmax2 (fmax2 a b) c.

(** ** Strings *)

(** [sub in s] *)
Fixpoint contains (sub s : string) : bool :=
  String.prefix sub s ||
  match s with
  | EmptyString => false
  | String _ s' => contains sub s'
  end.

(** [s.startswith(p)] *)
Definition startswith (s p : string) : bool := String.prefix p s.

(** [s[n:]] *)
Definition drop_str (n : nat) (s : string) : string :=
  String.substring n (String.length s - n) s.

(** [s[:n]] *)
Definition take_str (n : nat) (s : string) : string :=
  String.substring 0 n s.

(** [str(n)] for an [int] *)
Definition str_int (n : Z) : string := pretty n.

(** a string is falsy exactly when it is empty *)
Definition truthy (s : string) : bool :=
  match s with EmptyString => false | _ => true end.

(** ** Python dicts: insertion-ordered, one entry per key *)

Abbreviation pydict V := (list (string * V)).

Section pydict.
Context {V : Type}.

(** [d.get(k)] *)
Fixpoint dict_get (k : string) (d : pydict V) : option V :=
  match d with
  | [] => None
  | (k', v) :: d' => if decide (k' = k) then Some v else dict_get k d'
  end.

(** [k in d] *)
Definition dict_in (k : string) (d : pydict V) : bool :=
  match dict_get k d with Some _ => true | None => false end.

(** [d[k] = v]: an existing key keeps its place, a new one goes last *)
Fixpoint dict_set (k : string) (v : V) (d : pydict V) : pydict V :=
  match d with
  | [] => [(k, v)]
  | (k', v') :: d' =>
      if decide (k' = k) then (k, v) :: d' else (k', v') :: dict_set k v d'
  end.

(** [del d[k]] *)
Definition dict_del (k : string) (d : pydict V) : pydict V :=
  filter (λ kv, kv.1 ≠ k) d.

(** [d.keys()] and [d.values()], in insertion order *)
Definition dict_keys (d : pydict V) : list string := d.*1.
Definition dict_values (d : pydict V) : list V := d.*2.
End pydict.


(** ** models/product.py *)

Section models.
Context `{PyRuntime}.

Record Product := {
  id : string;
  name : string;
  price : float;
  category : string;
  description : string;
  stock : Z;
}.

(** what the validators of [Product] leave: a price that is not below
    zero once rounded, and a stock that is not negative *)
Definition Product_valid (p : Product) : Prop :=
  flt (price p) fzero = false ∧ 0 ≤ stock p.

Definition is_available (self : Product) (qty : Z) : bool :=
  bool_decide (qty ≤ stock self).

(** ** models/cart.py *)

Record CartItem := {
  product : Product;
  quantity : Z;
}.

Definition subtotal (self : CartItem) : float :=
  round2 (fmul_int (price (product self)) (quantity self)).

Record ShoppingCart := {
  items : pydict CartItem;
}.

(** The [ValueError]s the cart raises, by the message they carry. *)
Inductive CartError :=
  | QuantityNotPositive
  | InsufficientStock (p : Product)
  | InsufficientStockInCart (p : Product) (in_cart : Z)
  | NotInCart (product_id : string)
  | NegativeQuantity.

Definition error_message (e : CartError) : string :=
  match e with
  | QuantityNotPositive => "La cantidad debe ser mayor que 0"
  | InsufficientStock p =>
      "Stock insuficiente para " +:+ name p +:+ ". Disponible: " +:+ str_int (stock p)
  | InsufficientStockInCart p n =>
      "Stock insuficiente para " +:+ name p +:+ ". " +:+
      "Tienes " +:+ str_int n +:+ " en el carrito, " +:+
      "disponible: " +:+ str_int (stock p)
  | NotInCart product_id =>
      "El producto con ID '" +:+ product_id +:+ "' no está en el carrito"
  | NegativeQuantity => "La cantidad no puede ser negativa"
  end.

Definition is_stock_error (e : CartError) : bool :=
  match e with
  | InsufficientStock _ | InsufficientStockInCart _ _ => true
  | _ => false
  end.

(** A method call on a cart: it returns, or raises, and either way the
    cart is left in some state. *)
Inductive Outcome :=
  | Done (self' : ShoppingCart)
  | Raised (e : CartError) (self' : ShoppingCart).

Definition cart_after (o : Outcome) : ShoppingCart :=
  match o with Done c | Raised _ c => c end.

Definition raised (o : Outcome) : option CartError :=
  match o with Done _ => None | Raised e _ => Some e end.

(** [self.items[product_id].quantity = q] *)
Definition set_quantity (self : ShoppingCart) (product_id : string) (q : Z) : ShoppingCart :=
  match dict_get product_id (items self) with
  | Some item =>
      {| items := dict_set product_id {| product := product item; quantity := q |} (items self) |}
  | None => self
  end.

Definition add_item (self : ShoppingCart) (prod : Product) (qty : Z) : Outcome :=
  if bool_decide (qty ≤ 0) then Raised QuantityNotPositive self
  else if negb (is_available prod qty) then Raised (InsufficientStock prod) self
  else match dict_get (id prod) (items self) with
       | Some item =>
           let new_quantity := quantity item + qty in
           if negb (is_available prod new_quantity)
           then Raised (InsufficientStockInCart prod (quantity item)) self
           else Done (set_quantity self (id prod) new_quantity)
       | None =>
           Done {| items := dict_set (id prod)
                              {| product := prod; quantity := qty |} (items self) |}
       end.

Definition remove_item (self : ShoppingCart) (product_id : string) : Outcome :=
  if negb (dict_in product_id (items self)) then Raised (NotInCart product_id) self
  else Done {| items := dict_del product_id (items self) |}.

Definition update_quantity (self : ShoppingCart) (product_id : string) (qty : Z) : Outcome :=
  match dict_get product_id (items self) with
  | None => Raised (NotInCart product_id) self
  | Some item =>
      if bool_decide (qty < 0) then Raised NegativeQuantity self
      else if bool_decide (qty = 0) then remove_item self product_id
      else
        let prod := product item in
        if negb (is_available prod qty) then Raised (InsufficientStock prod) self
        else Done (set_quantity self product_id qty)
  end.

Definition get_item (self : ShoppingCart) (product_id : string) : option CartItem :=
  dict_get product_id (items self).

Definition get_total (self : ShoppingCart) : float :=
  round2 (fsum (subtotal <$> dict_values (items self))).

Definition get_item_count (self : ShoppingCart) : Z :=
  foldr Z.add 0 (quantity <$> dict_values (items self)).

Definition is_empty (self : ShoppingCart) : bool :=
  bool_decide (length (items self) = 0%nat).

Definition clear (self : ShoppingCart) : ShoppingCart := {| items := [] |}.

Definition get_items_list (self : ShoppingCart) : list CartItem :=
  dict_values (items self).

Definition has_product (self : ShoppingCart) (product_id : string) : bool :=
  dict_in product_id (items self).

(** the quantity of a product in the cart, zero when it has no line *)
Definition quantity_in_cart (self : ShoppingCart) (product_id : string) : Z :=
  match get_item self product_id with
  | Some item => quantity item
  | None => 0
  end.

End models.

(** ** Sequences of cart calls *)

Section cart_runs.
Context `{PyRuntime}.

Inductive CartOp :=
  | AddItem (prod : Product) (qty : Z)
  | UpdateQuantity (product_id : string) (qty : Z)
  | RemoveItem (product_id : string)
  | Clear.

Definition run_op (self : ShoppingCart) (op : CartOp) : Outcome :=
  match op with
  | AddItem prod qty => add_item self prod qty
  | UpdateQuantity product_id qty => update_quantity self product_id qty
  | RemoveItem product_id => remove_item self product_id
  | Clear => Done (clear self)
  end.

(** the cart a sequence of calls leaves; a call that raises leaves what
    it leaves, and the next call goes on from there *)
Definition run_ops (self : ShoppingCart) (ops : list CartOp) : ShoppingCart :=
  foldl (λ c op, cart_after (run_op c op)) self ops.

Definition empty_cart : ShoppingCart := {| items := [] |}.

Definition is_clear (op : CartOp) : bool :=
  match op with Clear => true | _ => false end.

(** [add_item] called for the same product with each quantity in turn:
    what each call raised, and the cart in the end *)
Fixpoint add_items (self : ShoppingCart) (prod : Product) (qtys : list Z)
    : list (option CartError) * ShoppingCart :=
  match qtys with
  | [] => ([], self)
  | qty :: qtys' =>
      let o := add_item self prod qty in
      let '(rs, c) := add_items (cart_after o) prod qtys' in
      (raised o :: rs, c)
  end.

(** the validator of [CartItem]: a line is never built with a quantity
    that is not positive *)
Definition quantities_positive (self : ShoppingCart) : Prop :=
  Forall (λ item, 0 < quantity item) (dict_values (items self)).

(** what the cart keeps true: one line per key, each line under the id
    of its own product and with a quantity of one at least *)
Definition cart_inv (self : ShoppingCart) : Prop :=
  NoDup (dict_keys (items self)) ∧
  Forall (λ kv, kv.1 = id (product kv.2) ∧ 1 ≤ quantity kv.2) (items self).

Definition sum_Z (l : list Z) : Z := foldr Z.add 0 l.

(** The total as the specification words it: the sum over the lines of
    price times quantity, each line rounded to two decimals, and the
    sum rounded to two decimals. *)
Definition spec_line (item : CartItem) : float :=
  round2 (fmul_int (price (product item)) (quantity item)).

Definition spec_total (lines : list CartItem) : float :=
  round2 (fsum (spec_line <$> lines)).

End cart_runs.

(** ** The store of cart objects *)

(** A [ShoppingCart] is a mutable object: the session holds a reference
    to it, and so may an [Order]. [Store] maps each reference to the
    value of the object it denotes. *)
Definition loc := positive.

Abbreviation Store := (gmap loc ShoppingCart).

Section store.
Context `{PyRuntime}.

Definition deref (s : Store) (l : loc) : ShoppingCart :=
  default {| items := [] |} (s !! l).

(** calling a mutating method on the cart that [l] denotes *)
Definition call (s : Store) (l : loc) (method : ShoppingCart → Outcome) : option CartError * Store :=
  let o := method (deref s l) in
  (raised o, <[l := cart_after o]> s).

(** [deepcopy(cart)]: a new object with the same contents *)
Definition deepcopy (s : Store) (l : loc) : loc * Store :=
  let l' := fresh (dom s) in
  (l', <[l' := deref s l]> s).

(** ** models/order.py *)

Record Order := {
  order_id : string;
  order_cart : loc;
  order_customer_name : string;
  order_customer_city : string;
  total : float;
  timestamp : string;
}.

(** What [Order] construction raises: the [ValueError] of
    [create_from_cart], or pydantic's [ValidationError] naming the
    fields that were refused. *)
Inductive OrderError :=
  | EmptyCartError
  | ValidationError (fields : list string).

(** [validate_non_empty_string], after the [min_length=1] check *)
Definition validate_non_empty_string (v : string) : option string :=
  if negb (truthy v) || negb (truthy (strip v)) then None else Some (strip v).

(** [validate_cart_not_empty] *)
Definition validate_cart_not_empty (s : Store) (v : loc) : option loc :=
  if is_empty (deref s v) then None else Some v.

(** [validate_total], after the [ge=0] check *)
Definition validate_total (v : float) : option float :=
  if flt v fzero then None else Some (round2 v).

(** what the clock and [uuid4] give when an order is made *)
Record Clock := {
  strftime_now : string;
  uuid4_hex : string;
}.

Definition generate_order_id (k : Clock) : string :=
  let timestamp_str := strftime_now k in
  let unique_suffix := take_str 6 (uuid4_hex k) in
  "ORD-" +:+ timestamp_str +:+ "-" +:+ unique_suffix.

Definition invalid {A} (field : string) (o : option A) : list string :=
  match o with Some _ => [] | None => [field] end.

(** [Order(order_id=..., cart=..., customer_name=..., customer_city=..., total=...)] *)
Definition Order_init (s : Store) (k : Clock) (oid : string) (c : loc)
    (customer_name customer_city : string) (t : float) : OrderError + Order :=
  match validate_cart_not_empty s c, validate_non_empty_string customer_name,
        validate_non_empty_string customer_city, validate_total t with
  | Some c', Some n', Some c'', Some t' =>
      inr {| order_id := oid; order_cart := c'; order_customer_name := n';
             order_customer_city := c''; total := t'; timestamp := strftime_now k |}
  | oc, on, oy, ot =>
      inl (ValidationError (invalid "cart" oc ++ invalid "customer_name" on ++
                            invalid "customer_city" oy ++ invalid "total" ot))
  end.

Definition create_from_cart (s : Store) (k : Clock) (cart : loc)
    (customer_name customer_city : string) : (OrderError + Order) * Store :=
  if is_empty (deref s cart) then (inl EmptyCartError, s)
  else
    let '(cart_copy, s') := deepcopy s cart in
    (Order_init s' k (generate_order_id k) cart_copy customer_name customer_city
       (get_total (deref s cart)), s').

(** the calls of a sequence made on the cart that [l] denotes *)
Definition call_ops (s : Store) (l : loc) (ops : list CartOp) : Store :=
  foldl (λ s op, (call s l (λ c, run_op c op)).2) s ops.

(** what the validators of [Product] and [CartItem] leave of a cart *)
Definition cart_valid (c : ShoppingCart) : Prop :=
  Forall (λ item, Product_valid (product item) ∧ 0 < quantity item) (dict_values (items c)).

(** ** app/services/catalog_service.py *)

(** the service once the catalog is loaded *)
Record CatalogService := {
  _products : pydict Product;
}.

Definition get_all_products (self : CatalogService) : list Product :=
  dict_values (_products self).

Definition get_by_id (self : CatalogService) (product_id : string) : option Product :=
  dict_get product_id (_products self).

Definition get_by_name (self : CatalogService) (nm : string) : option Product :=
  let name_lower := strip (lower nm) in
  List.find (λ p, bool_decide (lower (name p) = name_lower)) (dict_values (_products self)).

(** [matches.sort(key=lambda x: x[1], reverse=True)]: Python's sort is
    stable, also in reverse: entries come out by falling key, and entries
    with equal keys in the order they had. *)
Fixpoint insert_desc {A} (x : A * float) (l : list (A * float)) : list (A * float) :=
  match l with
  | [] => [x]
  | y :: l' => if flt x.2 y.2 then y :: insert_desc x l' else x :: l
  end.

Fixpoint sort_desc {A} (l : list (A * float)) : list (A * float) :=
  match l with
  | [] => []
  | x :: l' => insert_desc x (sort_desc l')
  end.

(** the relevance of a product for the query: the body of the loop *)
Definition best_ratio (query_lower : string) (p : Product) : float :=
  let name_ratio := ratio query_lower (lower (name p)) in
  let desc_ratio := ratio query_lower (lower (description p)) in
  let cat_ratio := ratio query_lower (lower (category p)) in
  let best := fmax3 name_ratio (fmul desc_ratio (ftenths 8)) (fmul cat_ratio (ftenths 9)) in
  if contains query_lower (lower (name p)) ||
     contains query_lower (lower (description p)) ||
     contains query_lower (lower (category p))
  then fmax2 best (ftenths 7)
  else best.

Definition search_products (self : CatalogService) (query : string) (min_similarity : float)
    : list Product :=
  let query_lower := strip (lower query) in
  if negb (truthy query_lower) then []
  else
    let matches :=
      omap (λ p, let b := best_ratio query_lower p in
                 if fge b min_similarity then Some (p, b) else None)
           (dict_values (_products self)) in
    (sort_desc matches).*1.

(** The relevance as the specification words it: the ratios of the
    lowercased query with name, description and category, the best of
    the first, eight tenths of the second and nine tenths of the third,
    and 0.7 at least when the query occurs in one of the three. *)
Definition spec_score (query : string) (p : Product) : float :=
  let q := lower query in
  let best := fmax3 (ratio q (name p)) (fmul (ratio q (description p)) (ftenths 8))
                (fmul (ratio q (category p)) (ftenths 9)) in
  if contains q (name p) || contains q (description p) || contains q (category p)
  then fmax2 best (ftenths 7)
  else best.

(** The relevance as the amended claim words it: the query lowercased
    and trimmed; its ratios with the lowercased name, description and
    category; the largest of the first, the second times 0.8 and the
    third times 0.9; and 0.7 at least when that form of the query is a
    substring of one of the three lowercased fields. *)
Definition amended_score (query : string) (p : Product) : float :=
  let q := strip (lower query) in
  let fields := [lower (name p); lower (description p); lower (category p)] in
  let nameRatio := ratio q (lower (name p)) in
  let descRatio := ratio q (lower (description p)) in
  let catRatio := ratio q (lower (category p)) in
  let score := fmax3 nameRatio (fmul descRatio (ftenths 8)) (fmul catRatio (ftenths 9)) in
  if existsb (contains q) fields then fmax2 score (ftenths 7) else score.

(** neither score is below the other *)
Definition same_score (a b : float) : bool := negb (flt a b) && negb (flt b a).

End store.

(** ** graph/state.py *)

Module UserIntent.
Inductive t :=
  | BROWSE | MANAGE_CART | VIEW_CART | CHECKOUT | OUT_OF_CONTEXT | UNKNOWN | EXIT.

Definition value (i : t) : string :=
  match i with
  | BROWSE => "browse"
  | MANAGE_CART => "manage_cart"
  | VIEW_CART => "view_cart"
  | CHECKOUT => "checkout"
  | OUT_OF_CONTEXT => "out_of_context"
  | UNKNOWN => "unknown"
  | EXIT => "exit"
  end.

(** [UserIntent(s)], [None] when it raises [ValueError] *)
Definition of_value (s : string) : option t :=
  List.find (λ i, bool_decide (value i = s))
    [BROWSE; MANAGE_CART; VIEW_CART; CHECKOUT; OUT_OF_CONTEXT; UNKNOWN; EXIT].
End UserIntent.

Module ConversationStage.
Inductive t := WELCOME | SHOPPING | CHECKOUT | COMPLETED | ERROR.
End ConversationStage.

Inductive Message :=
  | HumanMessage (content : string)
  | AIMessage (content : string).

Definition content (m : Message) : string :=
  match m with HumanMessage c | AIMessage c => c end.

Definition is_human (m : Message) : bool :=
  match m with HumanMessage _ => true | AIMessage _ => false end.

Section graph.
Context `{PyRuntime}.

(** one entry of [last_search_results] *)
Record ProductSummary := {
  summary_id : string;
  summary_name : string;
  summary_price : float;
  summary_category : string;
  summary_stock : Z;
}.

Definition summary (p : Product) : ProductSummary :=
  {| summary_id := id p; summary_name := name p; summary_price := price p;
     summary_category := category p; summary_stock := stock p |}.

Record ConversationState := {
  messages : list Message;
  cart : loc;
  current_intent : UserIntent.t;
  stage : ConversationStage.t;
  last_search_results : option (list ProductSummary);
  last_product_id : option string;
  customer_name : option string;
  customer_city : option string;
  order : option Order;
  session_id : string;
}.

(** [state[key] = v] *)
Definition set_messages (st : ConversationState) (v : list Message) :=
  {| messages := v; cart := cart st; current_intent := current_intent st; stage := stage st;
     last_search_results := last_search_results st; last_product_id := last_product_id st;
     customer_name := customer_name st; customer_city := customer_city st;
     order := order st; session_id := session_id st |}.
Definition set_current_intent (st : ConversationState) (v : UserIntent.t) :=
  {| messages := messages st; cart := cart st; current_intent := v; stage := stage st;
     last_search_results := last_search_results st; last_product_id := last_product_id st;
     customer_name := customer_name st; customer_city := customer_city st;
     order := order st; session_id := session_id st |}.
Definition set_stage (st : ConversationState) (v : ConversationStage.t) :=
  {| messages := messages st; cart := cart st; current_intent := current_intent st; stage := v;
     last_search_results := last_search_results st; last_product_id := last_product_id st;
     customer_name := customer_name st; customer_city := customer_city st;
     order := order st; session_id := session_id st |}.
Definition set_last_search_results (st : ConversationState) (v : option (list ProductSummary)) :=
  {| messages := messages st; cart := cart st; current_intent := current_intent st; stage := stage st;
     last_search_results := v; last_product_id := last_product_id st;
     customer_name := customer_name st; customer_city := customer_city st;
     order := order st; session_id := session_id st |}.
Definition set_last_product_id (st : ConversationState) (v : option string) :=
  {| messages := messages st; cart := cart st; current_intent := current_intent st; stage := stage st;
     last_search_results := last_search_results st; last_product_id := v;
     customer_name := customer_name st; customer_city := customer_city st;
     order := order st; session_id := session_id st |}.
Definition set_customer_name (st : ConversationState) (v : option string) :=
  {| messages := messages st; cart := cart st; current_intent := current_intent st; stage := stage st;
     last_search_results := last_search_results st; last_product_id := last_product_id st;
     customer_name := v; customer_city := customer_city st;
     order := order st; session_id := session_id st |}.
Definition set_customer_city (st : ConversationState) (v : option string) :=
  {| messages := messages st; cart := cart st; current_intent := current_intent st; stage := stage st;
     last_search_results := last_search_results st; last_product_id := last_product_id st;
     customer_name := customer_name st; customer_city := v;
     order := order st; session_id := session_id st |}.
Definition set_order (st : ConversationState) (v : option Order) :=
  {| messages := messages st; cart := cart st; current_intent := current_intent st; stage := stage st;
     last_search_results := last_search_results st; last_product_id := last_product_id st;
     customer_name := customer_name st; customer_city := customer_city st;
     order := v; session_id := session_id st |}.

(** [state["messages"] = state["messages"] + [AIMessage(content=text)]] *)
Definition reply (st : ConversationState) (text : string) : ConversationState :=
  set_messages st (messages st ++ [AIMessage text]).

(** [create_initial_state]: a new session owns a new, empty cart *)
Definition create_initial_state (s : Store) (sid : string) : ConversationState * Store :=
  let l := fresh (dom s) in
  ({| messages := []; cart := l; current_intent := UserIntent.BROWSE;
      stage := ConversationStage.WELCOME; last_search_results := None;
      last_product_id := None; customer_name := None; customer_city := None;
      order := None; session_id := sid |},
   <[l := {| items := [] |}]> s).

Definition get_last_user_message (st : ConversationState) : string :=
  match List.find is_human (rev (messages st)) with
  | Some m => content m
  | None => ""
  end.

(** [not state.get(key)] for an optional string: unset, or empty *)
Definition unset (o : option string) : bool :=
  match o with Some s => negb (truthy s) | None => true end.

(** ** graph/edges.py *)

Inductive Route :=
  | to_browse | to_manage_cart | to_view_cart | to_checkout | to_out_of_context | to_END.

Definition route_by_intent (st : ConversationState) : Route :=
  match current_intent st with
  | UserIntent.EXIT => to_END
  | UserIntent.BROWSE => to_browse
  | UserIntent.MANAGE_CART => to_manage_cart
  | UserIntent.VIEW_CART => to_view_cart
  | UserIntent.CHECKOUT => to_checkout
  | UserIntent.OUT_OF_CONTEXT => to_out_of_context
  | UserIntent.UNKNOWN => to_END
  end.

End graph.

(** ** graph/nodes.py *)

(** the newline of Python's ["\n"] *)
Definition NL : string := String (Ascii.ascii_of_nat 10) EmptyString.

Section nodes.
Context `{PyRuntime}.

(** *** What lies outside the code: the catalog, the model, the clock *)

(** the dictionary [_build_context] makes *)
Record IntentContext := {
  ctx_stage : ConversationStage.t;
  ctx_cart_item_count : Z;
  ctx_customer_name : option string;
  ctx_customer_city : option string;
  ctx_conversation_history : list Message;
  ctx_last_product_name : option string;
}.

(** A call of the model, by the prompt builder of [utils/prompts.py]
    that made its messages and the arguments given to it. *)
Inductive LlmRequest :=
  | IntentDetection (user_message : string) (context : IntentContext)
  | CartExtraction (user_message : string) (last_product_name : option string)
      (conversation_history : list Message) (candidate_products : option (list ProductSummary))
  | OutOfContext (user_message : string).

(** [get_llm()] or [llm.invoke] raises ([str(e)] is kept), or the reply
    has this [content] *)
Inductive LlmReply :=
  | LlmError (error_msg : string)
  | LlmContent (text : string).

(** the action the extractor reads off a reply *)
Record ProductRef := {
  ref_type : string;
  ref_value : string;
}.

Record ActionData := {
  action : string;
  action_quantity : Z;
  product_ref : ProductRef;
}.

Record Env := {
  (** [get_catalog_service()] *)
  catalog : CatalogService;
  (** [get_llm().invoke(messages)] *)
  llm : LlmRequest → LlmReply;
  (** [_clean_llm_json_response], [json.loads] and the reads of
      ["action"], ["quantity"] and ["product_reference"] with their
      defaults; [None] when decoding raises *)
  decode_action : string → option ActionData;
  clock : Clock;
}.

(** the cart objects, and the calls of the model made so far *)
Record World := {
  store : Store;
  llm_calls : list LlmRequest;
}.

Definition with_store (w : World) (s : Store) : World :=
  {| store := s; llm_calls := llm_calls w |}.

Definition invoke (env : Env) (w : World) (req : LlmRequest) : LlmReply * World :=
  (llm env req, {| store := store w; llm_calls := llm_calls w ++ [req] |}).

(** a node returns the state, or an exception leaves it *)
Inductive NodeResult :=
  | Returns (st : ConversationState) (w : World)
  | Raises (e : OrderError) (st : ConversationState) (w : World).

Definition state_of (r : NodeResult) : ConversationState :=
  match r with Returns st _ | Raises _ st _ => st end.

Definition world_of (r : NodeResult) : World :=
  match r with Returns _ w | Raises _ _ w => w end.

Definition raises (r : NodeResult) : option OrderError :=
  match r with Returns _ _ => None | Raises e _ _ => Some e end.

(** *** Errors of the model *)

Definition _handle_llm_error (error_msg : string) : string :=
  if contains "API key" error_msg || contains "401" error_msg || contains "Unauthorized" error_msg
  then "⚠️ Error de configuración de API key. Por favor verifica tu archivo .env."
  else if contains "429" error_msg || contains "rate_limit" error_msg ||
          contains "quota" (lower error_msg)
  then "⚠️ Límite de rate de API excedido. Por favor espera unos minutos e intenta de nuevo."
  else "❌ Ocurrió un error. Por favor intenta de nuevo.".

(** *** detect_intent *)

Definition welcome_msg : string :=
  "👋 **¡Bienvenido a la tienda online!**" +:+ NL +:+ NL +:+
  "Puedo ayudarte a:" +:+ NL +:+
  "📦 Ver productos: 'Muéstrame los productos'" +:+ NL +:+
  "➕ Añadir al carrito: 'Añade 2 Camiseta Básica'" +:+ NL +:+
  "🛒 Ver carrito: 'Qué llevo en el carrito'" +:+ NL +:+
  "💳 Comprar: 'Quiero finalizar la compra'" +:+ NL +:+
  "👋 Salir: 'Salir'" +:+ NL +:+ NL +:+
  "¿Qué te gustaría hacer?".

Definition _show_welcome_message (st : ConversationState) : ConversationState :=
  set_current_intent (set_stage (reply st welcome_msg) ConversationStage.SHOPPING)
    UserIntent.UNKNOWN.

Definition last_product_name_of (env : Env) (st : ConversationState) : option string :=
  match last_product_id st with
  | Some last_product_id =>
      if truthy last_product_id
      then name <$> get_by_id (catalog env) last_product_id
      else None
  | None => None
  end.

Definition _build_context (env : Env) (st : ConversationState) (w : World) : IntentContext :=
  {| ctx_stage := stage st;
     ctx_cart_item_count := get_item_count (deref (store w) (cart st));
     ctx_customer_name := customer_name st;
     ctx_customer_city := customer_city st;
     ctx_conversation_history := messages st;
     ctx_last_product_name := last_product_name_of env st |}.

Definition is_checkout_stage (s : ConversationStage.t) : bool :=
  match s with ConversationStage.CHECKOUT => true | _ => false end.

Definition detect_intent_node (env : Env) (st : ConversationState) (w : World) : NodeResult :=
  if bool_decide (length (messages st) = 1%nat) then Returns (_show_welcome_message st) w
  else
    let user_message := get_last_user_message st in
    if negb (truthy user_message) then Returns (set_current_intent st UserIntent.UNKNOWN) w
    else if is_checkout_stage (stage st) &&
            (unset (customer_name st) || unset (customer_city st))
    then Returns (set_current_intent st UserIntent.CHECKOUT) w
    else
      let context := _build_context env st w in
      let '(response, w') := invoke env w (IntentDetection user_message context) in
      match response with
      | LlmContent text =>
          let intent_str := upper (strip text) in
          match UserIntent.of_value (lower intent_str) with
          | Some intent => Returns (set_current_intent st intent) w'
          | None => Returns (set_current_intent st UserIntent.UNKNOWN) w'
          end
      | LlmError _ => Returns (set_current_intent st UserIntent.UNKNOWN) w'
      end.

(** *** browse *)

Definition browse_line (i : nat) (p : Product) : string :=
  str_int (Z.of_nat i) +:+ ". **" +:+ name p +:+ "** - $" +:+ fstr (price p) +:+
  " (" +:+ category p +:+ ") - Stock: " +:+ str_int (stock p) +:+ NL.

Fixpoint browse_lines (i : nat) (products : list Product) : string :=
  match products with
  | [] => ""
  | p :: ps => browse_line i p +:+ browse_lines (S i) ps
  end.

Definition browse_products_node (env : Env) (st : ConversationState) (w : World) : NodeResult :=
  let products := get_all_products (catalog env) in
  let st := set_last_search_results st (Some (summary <$> products)) in
  let response :=
    "📦 **Productos disponibles:**" +:+ NL +:+ NL +:+
    browse_lines 1 products +:+
    NL +:+ "💡 Puedes decir: 'Añade 2 Camiseta Básica Azul' o 'Quiero producto 1'" in
  Returns (set_stage (reply st response) ConversationStage.SHOPPING) w.

(** *** manage_cart *)

(** [_extract_cart_action]: the model's call raises, or the reply does
    not decode, or it decodes to an action *)
Definition _extract_cart_action (env : Env) (user_message : string) (st : ConversationState)
    (w : World) : (string + option ActionData) * World :=
  let last_product_name := last_product_name_of env st in
  let search_results := search_products (catalog env) user_message (ftenths 3) in
  let candidate_products :=
    match search_results with
    | [] => None
    | _ => Some (summary <$> take 10 search_results)
    end in
  let conversation_history := messages st in
  let '(response, w') :=
    invoke env w (CartExtraction user_message last_product_name conversation_history
                    candidate_products) in
  match response with
  | LlmError e => (inl e, w')
  | LlmContent text => (inr (decode_action env text), w')
  end.

(** [_find_product]: a product, [None], or the [TypeError] of [len(None)]
    when an index is looked up before any listing was shown *)
Definition _find_product (env : Env) (action_data : ActionData) (st : ConversationState)
    : string + option Product :=
  let product_ref := product_ref action_data in
  let ref_type := ref_type product_ref in
  let ref_value := ref_value product_ref in
  if bool_decide (ref_type = "last") then
    match last_product_id st with
    | Some last_product_id =>
        if truthy last_product_id then inr (get_by_id (catalog env) last_product_id)
        else inr None
    | None => inr None
    end
  else if bool_decide (ref_type = "id") then inr (get_by_id (catalog env) ref_value)
  else if bool_decide (ref_type = "index") then
    match py_int ref_value with
    | Some n =>
        let idx := n - 1 in
        if bool_decide (0 ≤ idx) then
          match last_search_results st with
          | None => inl "object of type 'NoneType' has no len()"
          | Some results =>
              if bool_decide (idx < Z.of_nat (length results)) then
                match results !! Z.to_nat idx with
                | Some r => inr (get_by_id (catalog env) (summary_id r))
                | None => inr None
                end
              else inr None
          end
        else inr None
    | None => inr None
    end
  else if bool_decide (ref_type = "name") then
    match get_by_id (catalog env) ref_value with
    | Some prod => inr (Some prod)
    | None => inr (get_by_name (catalog env) ref_value)
    end
  else inr None.

(** the cart helpers return the reply text, or the cart raises *)
Definition CartReply : Type := (CartError + string) * Store.

Definition added (prod : Product) (qty : Z) : string :=
  "✅ " +:+ str_int qty +:+ "x " +:+ name prod +:+ " añadido al carrito.".

Definition only_in_stock (prod : Product) : string :=
  "⚠️ Solo hay " +:+ str_int (stock prod) +:+ " unidades de " +:+ name prod +:+ " disponibles.".

Definition removed (prod : Product) : string :=
  "✅ " +:+ name prod +:+ " eliminado del carrito.".

Definition then_say (r : option CartError * Store) (text : string) : CartReply :=
  match r with
  | (Some e, s) => (inl e, s)
  | (None, s) => (inr text, s)
  end.

Definition _add_to_cart (s : Store) (cart : loc) (prod : Product) (qty : Z) : CartReply :=
  if bool_decide (qty ≤ stock prod) then
    then_say (call s cart (λ c, add_item c prod qty)) (added prod qty)
  else (inr (only_in_stock prod), s).

Definition _update_cart_quantity (s : Store) (cart : loc) (prod : Product) (qty : Z) : CartReply :=
  if negb (has_product (deref s cart) (id prod)) then
    if bool_decide (qty ≤ stock prod) then
      then_say (call s cart (λ c, add_item c prod qty)) (added prod qty)
    else (inr (only_in_stock prod), s)
  else
    let current_quantity := quantity_in_cart (deref s cart) (id prod) in
    if bool_decide (qty = 0) then
      then_say (call s cart (λ c, remove_item c (id prod))) (removed prod)
    else if bool_decide (qty ≤ stock prod) then
      then_say (call s cart (λ c, update_quantity c (id prod) qty))
        ("✅ Cantidad de " +:+ name prod +:+ " actualizada: " +:+
         str_int current_quantity +:+ " → " +:+ str_int qty)
    else (inr (only_in_stock prod), s).

Definition _remove_from_cart (s : Store) (cart : loc) (prod : Product) (qty : Z) : CartReply :=
  if negb (has_product (deref s cart) (id prod)) then
    (inr ("⚠️ " +:+ name prod +:+ " no está en tu carrito."), s)
  else
    let current_quantity := quantity_in_cart (deref s cart) (id prod) in
    if bool_decide (current_quantity ≤ qty) then
      then_say (call s cart (λ c, remove_item c (id prod))) (removed prod)
    else
      let new_quantity := current_quantity - qty in
      then_say (call s cart (λ c, update_quantity c (id prod) new_quantity))
        ("✅ Reducida cantidad de " +:+ name prod +:+ ": " +:+
         str_int current_quantity +:+ " → " +:+ str_int new_quantity).

Definition _execute_cart_action (action_data : ActionData) (prod : Product)
    (st : ConversationState) (s : Store) : CartReply :=
  let qty := action_quantity action_data in
  if bool_decide (action action_data = "remove") then _remove_from_cart s (cart st) prod qty
  else if bool_decide (action action_data = "update") then _update_cart_quantity s (cart st) prod qty
  else _add_to_cart s (cart st) prod qty.

Inductive CartErrorType := parse_error | product_not_found.

Definition _send_cart_error_message (st : ConversationState) (error_type : CartErrorType)
    : ConversationState :=
  let message :=
    match error_type with
    | parse_error =>
        "❌ No entendí eso. Intenta con: 'Añade 2 Camiseta Básica' o 'Quiero producto 1'"
    | product_not_found =>
        "❌ No encontré ese producto. Intenta con: 'Añade 2 Camiseta Básica Azul' o 'Quiero producto 1'"
    end in
  set_stage (reply st message) ConversationStage.SHOPPING.

Definition manage_cart_node (env : Env) (st : ConversationState) (w : World) : NodeResult :=
  let user_message := get_last_user_message st in
  let finish st w response_text :=
    Returns (set_stage (reply st response_text) ConversationStage.SHOPPING) w in
  match _extract_cart_action env user_message st w with
  | (inl e, w) => finish st w (_handle_llm_error e)
  | (inr None, w) => Returns (_send_cart_error_message st parse_error) w
  | (inr (Some action_data), w) =>
      match _find_product env action_data st with
      | inl e => finish st w (_handle_llm_error e)
      | inr None => Returns (_send_cart_error_message st product_not_found) w
      | inr (Some prod) =>
          let st := set_last_product_id st (Some (id prod)) in
          match _execute_cart_action action_data prod st (store w) with
          | (inr response_text, s) => finish st (with_store w s) response_text
          | (inl e, s) => finish st (with_store w s) (_handle_llm_error (error_message e))
          end
      end
  end.

(** *** view_cart *)

Definition item_line (item : CartItem) : string :=
  "- " +:+ str_int (quantity item) +:+ "x " +:+ name (product item) +:+
  " - $" +:+ fmt2 (subtotal item) +:+ NL.

Definition item_lines (c : ShoppingCart) : string :=
  foldr (λ item rest, item_line item +:+ rest) "" (dict_values (items c)).

Definition view_cart_node (env : Env) (st : ConversationState) (w : World) : NodeResult :=
  let c := deref (store w) (cart st) in
  let response :=
    if is_empty c then
      "🛒 Tu carrito está vacío." +:+ NL +:+ NL +:+
      "💡 Puedes ver productos con: 'Muéstrame los productos'"
    else
      "🛒 **Tu carrito:**" +:+ NL +:+ NL +:+
      item_lines c +:+
      NL +:+ "**Total: $" +:+ fmt2 (get_total c) +:+ "**" +:+
      NL +:+ NL +:+ "💡 ¿Quieres finalizar la compra?" in
  Returns (reply st response) w.

(** *** checkout *)

Definition _extract_name_from_message (message : string) : option string :=
  let nm := strip message in
  let nm :=
    match List.find (λ prefix, startswith (lower nm) prefix)
            ["mi nombre es"; "me llamo"; "soy"; "mi nombre:"] with
    | Some prefix => strip (drop_str (String.length prefix) nm)
    | None => nm
    end in
  if truthy nm then Some nm else None.

Definition _collect_customer_name (st : ConversationState) (user_message : string)
    : ConversationState :=
  let st :=
    if existsb (λ word, contains word (lower user_message))
         ["comprar"; "finalizar"; "checkout"; "pagar"]
    then reply st ("📝 Para completar la compra necesito tus datos." +:+ NL +:+
                   "¿Cuál es tu nombre?")
    else
      match _extract_name_from_message user_message with
      | Some nm => reply (set_customer_name st (Some nm)) "✅ Perfecto. ¿En qué ciudad?"
      | None => reply st "⚠️ No entendí tu nombre. ¿Cuál es tu nombre?"
      end in
  set_stage st ConversationStage.CHECKOUT.

Definition _format_order_confirmation (s : Store) (o : Order) : string :=
  "✅ **¡Pedido confirmado!**" +:+ NL +:+ NL +:+
  "📦 **Orden #" +:+ order_id o +:+ "**" +:+ NL +:+
  "👤 Cliente: " +:+ order_customer_name o +:+ NL +:+
  "📍 Ciudad: " +:+ order_customer_city o +:+ NL +:+ NL +:+
  "**Productos:**" +:+ NL +:+
  item_lines (deref s (order_cart o)) +:+
  NL +:+ "💰 **Total: $" +:+ fmt2 (total o) +:+ "**" +:+ NL +:+ NL +:+
  "¡Gracias por tu compra! 🎉".

Definition _complete_order (env : Env) (st : ConversationState) (city : string) (w : World)
    : NodeResult :=
  let st := set_customer_city st (Some (strip city)) in
  match create_from_cart (store w) (clock env) (cart st)
          (default "" (customer_name st)) (default "" (customer_city st)) with
  | (inl e, s) => Raises e st (with_store w s)
  | (inr o, s) =>
      let st := set_order st (Some o) in
      let response := _format_order_confirmation s o in
      let s := <[cart st := clear (deref s (cart st))]> s in
      Returns (set_stage (reply st response) ConversationStage.COMPLETED) (with_store w s)
  end.

Definition checkout_node (env : Env) (st : ConversationState) (w : World) : NodeResult :=
  let user_message := get_last_user_message st in
  if is_empty (deref (store w) (cart st)) then
    Returns (set_stage (reply st "⚠️ Tu carrito está vacío. Añade productos antes de comprar.")
               ConversationStage.SHOPPING) w
  else if unset (customer_name st) then Returns (_collect_customer_name st user_message) w
  else if unset (customer_city st) then _complete_order env st user_message w
  else Returns st w.

(** *** out_of_context *)

Definition out_of_context_node (env : Env) (st : ConversationState) (w : World) : NodeResult :=
  let user_message := get_last_user_message st in
  let '(response, w) := invoke env w (OutOfContext user_message) in
  let response_text :=
    match response with
    | LlmContent text => strip text
    | LlmError _ =>
        "Soy un asistente de compras y solo puedo ayudarte con productos. " +:+
        "¿Quieres ver nuestro catálogo?"
    end in
  Returns (set_stage (reply st response_text) ConversationStage.SHOPPING) w.

(** ** graph/builder.py *)

(** the five handlers the graph routes to *)
Inductive Handler := browse | manage_cart | view_cart | checkout | out_of_context.

Definition run_handler (h : Handler) : Env → ConversationState → World → NodeResult :=
  match h with
  | browse => browse_products_node
  | manage_cart => manage_cart_node
  | view_cart => view_cart_node
  | checkout => checkout_node
  | out_of_context => out_of_context_node
  end.

Definition handler_of (r : Route) : option Handler :=
  match r with
  | to_browse => Some browse
  | to_manage_cart => Some manage_cart
  | to_view_cart => Some view_cart
  | to_checkout => Some checkout
  | to_out_of_context => Some out_of_context
  | to_END => None
  end.

(** [messages: Annotated[List[BaseMessage], add]] in [ConversationState]:
    the graph keeps every key of the state in a channel, and writes
    what a node returns key by key. For [messages] the returned list is
    added to the list the channel holds ([operator.add]); every other
    key is replaced by the returned value. The nodes return the whole
    state, its log included, so the log they return is added to the log
    they were given. *)
Definition write_state (channels returned : ConversationState) : ConversationState :=
  set_messages returned (messages channels ++ messages returned).

(** One run of the graph, [graph.invoke(state)]: the input goes to the
    channels (its log added to the empty list), [detect_intent] runs on
    it and its return is written; then the handler the conditional
    edge names runs on the state of the channels and its return is
    written; then [END] ([should_continue] says so after every
    handler). The result is the state of the channels. An exception of
    a node leaves [invoke]. *)
Definition run_conversation_turn (env : Env) (st : ConversationState) (w : World) : NodeResult :=
  match detect_intent_node env st w with
  | Raises e st w => Raises e st w
  | Returns returned w =>
      let st := write_state st returned in
      match handler_of (route_by_intent st) with
      | Some h =>
          match run_handler h env st w with
          | Returns returned w => Returns (write_state st returned) w
          | Raises e st w => Raises e st w
          end
      | None => Returns st w
      end
  end.

(** [self.state["messages"].append(HumanMessage(content=user_message))] *)
Definition hears (st : ConversationState) (user_message : string) : ConversationState :=
  set_messages st (messages st ++ [HumanMessage user_message]).

(** [ShoppingChatBot.send_message]: the user's text joins the log, then
    the graph runs on the state; when it raises, the bot is left with
    the state it had, the user's text included *)
Definition send_message (env : Env) (st : ConversationState) (w : World) (user_message : string)
    : NodeResult :=
  let st := hears st user_message in
  match run_conversation_turn env st w with
  | Returns st' w' => Returns st' w'
  | Raises e _ w' => Raises e st w'
  end.

(** a session from its start: each text is sent in turn, and when a
    turn raises the next one goes on from the state it left *)
Definition chat (env : Env) (texts : list string) : NodeResult :=
  let '(st, s) := create_initial_state ∅ "session" in
  foldl (λ r text, send_message env (state_of r) (world_of r) text)
        (Returns st {| store := s; llm_calls := [] |}) texts.

(** the cart of the session *)
Definition session_cart (r : NodeResult) : ShoppingCart :=
  deref (store (world_of r)) (cart (state_of r)).

End nodes.

(** ** A runtime to evaluate the definitions on

    Amounts are exact hundredths, strings are ASCII. On such text and
    on prices with two decimals this is what Python computes; [ratio]
    stands for [difflib] only where the two strings are equal (and
    short) or one of them is empty. *)

Module Decimal.

Definition is_space (c : Ascii.ascii) : bool :=
  let n := Ascii.nat_of_ascii c in
  ((9 <=? n) && (n <=? 13) || (28 <=? n) && (n <=? 32))%nat.

Definition lower_char (c : Ascii.ascii) : Ascii.ascii :=
  let n := Ascii.nat_of_ascii c in
  if ((65 <=? n) && (n <=? 90))%nat then Ascii.ascii_of_nat (n + 32) else c.

Definition upper_char (c : Ascii.ascii) : Ascii.ascii :=
  let n := Ascii.nat_of_ascii c in
  if ((97 <=? n) && (n <=? 122))%nat then Ascii.ascii_of_nat (n - 32) else c.

Fixpoint map_str (f : Ascii.ascii → Ascii.ascii) (s : string) : string :=
  match s with
  | EmptyString => EmptyString
  | String c s' => String (f c) (map_str f s')
  end.

Fixpoint lstrip (s : string) : string :=
  match s with
  | String c s' => if is_space c then lstrip s' else s
  | EmptyString => EmptyString
  end.

Fixpoint rstrip (s : string) : string :=
  match s with
  | EmptyString => EmptyString
  | String c s' =>
      match rstrip s' with
      | EmptyString => if is_space c then EmptyString else String c EmptyString
      | r => String c r
      end
  end.

Definition strip_ascii (s : string) : string := rstrip (lstrip s).

Fixpoint digits (s : string) (acc : Z) : option Z :=
  match s with
  | EmptyString => Some acc
  | String c s' =>
      match Ascii.is_nat c with
      | Some d => digits s' (10 * acc + Z.of_nat d)
      | None => None
      end
  end.

Definition parse_int (s : string) : option Z :=
  match strip_ascii s with
  | EmptyString => None
  | String "-"%char s' => if truthy s' then Z.opp <$> digits s' 0 else None
  | s' => digits s' 0
  end.

Definition two_digits (n : Z) : string :=
  if bool_decide (n < 10) then "0" +:+ pretty n else pretty n.

(** [f"{x:.2f}"] of an amount in hundredths *)
Definition show2 (x : Z) : string :=
  (if bool_decide (x < 0) then "-" else "") +:+
  pretty (Z.abs x / 100) +:+ "." +:+ two_digits (Z.abs x mod 100).

(** [str(x)]: the shortest decimal, with one decimal at least *)
Definition show (x : Z) : string :=
  (if bool_decide (x < 0) then "-" else "") +:+
  pretty (Z.abs x / 100) +:+ "." +:+
  (if bool_decide (Z.abs x mod 10 = 0) then pretty (Z.abs x mod 100 / 10)
   else two_digits (Z.abs x mod 100)).

Definition same_ratio (a b : string) : Z :=
  if bool_decide (a = b) then 100 else 0.

#[export] Instance runtime : PyRuntime.
Proof.
  refine {|
    float := Z;
    fzero := 0;
    fmul_int x n := x * n;
    fmul x y := x * y / 100;
    fsum xs := foldr Z.add 0 xs;
    flt := Z.ltb;
    ftenths n := 10 * n;
    round2 x := x;
    fmt2 := show2;
    fstr := show;
    lower := map_str lower_char;
    upper := map_str upper_char;
    strip := strip_ascii;
    ratio := same_ratio;
    py_int := parse_int;
  |}.
  - abstract reflexivity.
  - abstract (intros x; apply Z.ltb_irrefl).
  - abstract (intros x y z; rewrite !Z.ltb_lt; lia).
  - abstract (intros x y z; rewrite !Z.ltb_ge; lia).
  - abstract (intros xs Hxs; apply Z.ltb_ge;
              induction Hxs as [|x xs Hx _ IH]; simpl; [lia|]; apply Z.ltb_ge in Hx; lia).
  - abstract (intros x n; rewrite !Z.ltb_ge; nia).
  - abstract auto.
  - abstract reflexivity.
  - abstract (intros s; unfold strip_ascii;
              assert (∀ t, rstrip (rstrip t) = rstrip t) as Hr by
                (induction t as [|c t IH]; simpl; [done|];
                 destruct (rstrip t) as [|d r] eqn:Ht;
                 [destruct (is_space c) eqn:Hc; simpl; [done|]; by rewrite Hc
                 |simpl in *; by rewrite IH]);
              assert (lstrip (rstrip (lstrip s)) = rstrip (lstrip s)) as ->; [|apply Hr];
              induction s as [|c s IH]; simpl; [done|];
              destruct (is_space c) eqn:Hc; [done|]; simpl;
              destruct (rstrip s); simpl; rewrite ?Hc; simpl; by rewrite ?Hc).
Defined.

End Decimal.

(** ** A small shop to evaluate the definitions on *)

Module Sample.
Import Decimal.

Definition camiseta : Product :=
  {| id := "prod_001"; name := "Camiseta Basica"; price := 1999; category := "ropa";
     description := "Camiseta de algodon"; stock := 50 |}.

Definition cuaderno : Product :=
  {| id := "prod_002"; name := "Cuaderno"; price := 350; category := "papeleria";
     description := ""; stock := 5 |}.

Definition shop : CatalogService :=
  {| _products := [("prod_001", camiseta); ("prod_002", cuaderno)] |}.

(** two shirts and three notebooks *)
Definition two_lines : ShoppingCart :=
  {| items := [("prod_001", {| product := camiseta; quantity := 2 |});
               ("prod_002", {| product := cuaderno; quantity := 3 |})] |}.

(** a model that answers by keywords, and always extracts the same
    action from a request about notebooks *)
Definition keyword_llm (req : LlmRequest) : LlmReply :=
  match req with
  | IntentDetection user_message _ =>
      if contains "anade" (lower user_message) then LlmContent "MANAGE_CART"
      else if contains "comprar" (lower user_message) then LlmContent " checkout "
      else LlmContent "no se"
  | CartExtraction user_message _ _ _ =>
      if contains "cuaderno" (lower user_message)
      then LlmContent "{action: add, quantity: 3, product_reference: {type: name, value: Cuaderno}}"
      else LlmContent "No lo se."
  | OutOfContext _ => LlmError "429 Too Many Requests"
  end.

Definition keyword_decode (text : string) : option ActionData :=
  if contains "value: Cuaderno" text
  then Some {| action := "add"; action_quantity := 3;
               product_ref := {| ref_type := "name"; ref_value := "Cuaderno" |} |}
  else None.

Definition env : Env :=
  {| catalog := shop; llm := keyword_llm; decode_action := keyword_decode;
     clock := {| strftime_now := "20260108-143022"; uuid4_hex := "3f9a1c0b7d2e4f6a8b1c2d3e4f5a6b7c" |} |}.

(** three notebooks in the cart, the name given, the city asked for *)
Definition awaiting_city : NodeResult :=
  chat env ["hola"; "anade 3 cuadernos"; "quiero comprar"; "Juan"].

(** an order placed, and three notebooks in the cart again *)
Definition shopping_again : NodeResult :=
  chat env ["hola"; "anade 3 cuadernos"; "quiero comprar"; "Juan"; "Madrid"; "anade 3 cuadernos"].

Definition three_notebooks : ShoppingCart :=
  {| items := [("prod_002", {| product := cuaderno; quantity := 3 |})] |}.

End Sample.

(** ** The rest of the code *)

Section more_code.
Context `{PyRuntime}.

(** *** models/product.py: building a product *)

(** one entry of the [products] list of the catalog file, its fields
    of the types [Product] declares; [description] and [stock] may be
    missing *)
Record ProductData := {
  data_id : string;
  data_name : string;
  data_price : float;
  data_category : string;
  data_description : option string;
  data_stock : option Z;
}.


(** *** app/services/catalog_service.py: loading *)



(** a catalog as loading leaves it: one entry per key, each product
    under its own id, and no id empty *)
Definition catalog_wf (self : CatalogService) : Prop :=
  NoDup (dict_keys (_products self)) ∧
  Forall (λ kv, kv.1 = id kv.2 ∧ truthy (id kv.2) = true) (_products self).

(** *** graph/state.py: the two predicates *)

Definition is_cart_ready_for_checkout (s : Store) (st : ConversationState) : bool :=
  negb (is_empty (deref s (cart st))).

Definition is_order_info_complete (st : ConversationState) : bool :=
  match customer_name st, customer_city st with
  | Some customer_name, Some customer_city =>
      bool_decide (0 < String.length (strip customer_name))%nat &&
      bool_decide (0 < String.length (strip customer_city))%nat
  | _, _ => false
  end.

(** *** graph/nodes.py: cleaning the reply of the model *)

(** [s.split(sep)[0]]: what comes before the first [sep] *)
Fixpoint before (sep s : string) : string :=
  if String.prefix sep s then ""
  else match s with
       | EmptyString => ""
       | String c s' => String c (before sep s')
       end.

(** what comes after the first [sep], nothing when there is none *)
Fixpoint behind (sep s : string) : string :=
  if String.prefix sep s then drop_str (String.length sep) s
  else match s with
       | EmptyString => ""
       | String c s' => behind sep s'
       end.

(** [s.split(sep)[1]] when [sep] occurs in [s]: between the first
    [sep] and the next *)
Definition split_1 (sep s : string) : string := before sep (behind sep s).

(** the text from the first [c] on *)
Fixpoint from_first (c : Ascii.ascii) (s : string) : option string :=
  match s with
  | EmptyString => None
  | String a s' => if decide (a = c) then Some s else from_first c s'
  end.

(** the text up to the last [c] *)
Fixpoint upto_last (c : Ascii.ascii) (s : string) : option string :=
  match s with
  | EmptyString => None
  | String a s' =>
      match upto_last c s' with
      | Some r => Some (String a r)
      | None => if decide (a = c) then Some (String a EmptyString) else None
      end
  end.

Definition open_brace : Ascii.ascii := Ascii.ascii_of_nat 123.
Definition close_brace : Ascii.ascii := Ascii.ascii_of_nat 125.

(** [re.search(r'\{.*\}', content, re.DOTALL)]: from the first opening
    brace to the last closing brace behind it *)
Definition search_braces (content : string) : option string :=
  match from_first open_brace content with
  | Some (String a s') => String a <$> upto_last close_brace s'
  | _ => None
  end.

Definition fence : string := "```".
Definition json_fence : string := "```json".

Definition _clean_llm_json_response (content : string) : string :=
  let content := strip content in
  let content :=
    if contains json_fence content
    then strip (before fence (split_1 json_fence content))
    else if contains fence content
    then strip (before fence (split_1 fence content))
    else content in
  match search_braces content with
  | Some json_match => json_match
  | None => content
  end.

(** *** Sequences of calls and the products they add *)

Definition added_products (ops : list CartOp) : list Product :=
  omap (λ op, match op with AddItem prod _ => Some prod | _ => None end) ops.

(** the lines hold products of [P] only, and none beyond its stock *)
Definition within_stock (P : list Product) (c : ShoppingCart) : Prop :=
  Forall (λ item, product item ∈ P ∧ quantity item ≤ stock (product item))
    (dict_values (items c)).

(** the logs a turn can come back with: the log it was given twice
    when no handler ran, four times when one did, and one message of
    the assistant behind them at most *)
Definition turn_logs (m log : list Message) : Prop :=
  log = m ++ m ∨ (∃ answer, log = m ++ m ++ [AIMessage answer]) ∨
  log = (m ++ m) ++ (m ++ m) ∨
  ∃ answer, log = (m ++ m) ++ (m ++ m) ++ [AIMessage answer].

(** a customer name that is kept is not empty and has nothing to strip *)
Definition name_wf (st : ConversationState) : Prop :=
  ∀ nm, customer_name st = Some nm → truthy nm = true ∧ strip nm = nm.

End more_code.

Module MoreSample.
Import Decimal Sample.

Definition catalog_file : list ProductData :=
  [ {| data_id := "prod_001"; data_name := " Camiseta Basica "; data_price := 1999;
       data_category := "ropa"; data_description := Some "Camiseta de algodon";
       data_stock := Some 50 |};
    {| data_id := "prod_002"; data_name := "Cuaderno"; data_price := 350;
       data_category := "papeleria"; data_description := None; data_stock := Some 5 |};
    {| data_id := "prod_003"; data_name := "Gratis"; data_price := 0;
       data_category := "ropa"; data_description := None; data_stock := None |} ].

(** a catalog where one query meets three products, two of them
    with the same relevance *)
Definition cuaderno_grande : Product :=
  {| id := "prod_010"; name := "Cuaderno grande"; price := 500; category := "papeleria";
     description := ""; stock := 4 |}.

Definition cuaderno_rojo : Product :=
  {| id := "prod_011"; name := "Cuaderno rojo"; price := 400; category := "papeleria";
     description := ""; stock := 7 |}.

Definition stationery : CatalogService :=
  {| _products := [("prod_010", cuaderno_grande); ("prod_002", cuaderno);
                   ("prod_011", cuaderno_rojo); ("prod_001", camiseta)] |}.

End MoreSample.

(** * Properties *)

(** ** Dicts *)

Section pydict_facts.
Context {V : Type}.
Implicit Types (d : pydict V) (k : string) (v : V).

Lemma dict_get_set_eq k v d : dict_get k (dict_set k v d) = Some v.
Proof.
  induction d as [|[k' v'] d IH]; simpl.
  - by rewrite decide_True.
  - destruct (decide (k' = k)) as [->|Hne]; simpl.
    + by rewrite decide_True.
    + by rewrite decide_False.
Qed.

Lemma dict_get_set_ne k k' v d : k ≠ k' → dict_get k' (dict_set k v d) = dict_get k' d.
Proof.
  intros Hne. induction d as [|[k0 v0] d IH]; simpl.
  - by rewrite decide_False.
  - destruct (decide (k0 = k)) as [->|Hk0]; simpl.
    + by rewrite !decide_False.
    + destruct (decide (k0 = k')); auto.
Qed.

Lemma dict_get_del_eq k d : dict_get k (dict_del k d) = None.
Proof.
  unfold dict_del. induction d as [|[k' v'] d IH]; [done|].
  rewrite filter_cons. simpl. destruct (decide (k' ≠ k)) as [Hne|Heq]; simpl; [|done].
  by rewrite decide_False.
Qed.

Lemma dict_get_del_ne k k' d : k ≠ k' → dict_get k' (dict_del k d) = dict_get k' d.
Proof.
  intros Hne. unfold dict_del. induction d as [|[k0 v0] d IH]; [done|].
  rewrite filter_cons. simpl. destruct (decide (k0 ≠ k)) as [Hk0|Hk0]; simpl.
  - by rewrite IH.
  - apply dec_stable in Hk0 as ->. by rewrite decide_False.
Qed.

Lemma dict_get_Some_elem k v d : dict_get k d = Some v → (k, v) ∈ d.
Proof.
  induction d as [|[k' v'] d IH]; simpl; [done|].
  destruct (decide (k' = k)) as [->|Hne]; intros Hg.
  - injection Hg as ->. apply list_elem_of_here.
  - apply list_elem_of_further. auto.
Qed.

Lemma dict_get_None_keys k d : dict_get k d = None → k ∉ dict_keys d.
Proof.
  unfold dict_keys. induction d as [|[k' v'] d IH]; simpl.
  - intros _. apply not_elem_of_nil.
  - destruct (decide (k' = k)); [done|]. intros Hg. rewrite not_elem_of_cons. split; auto.
Qed.

Lemma dict_set_elem k v k' v' d :
  (k', v') ∈ dict_set k v d → (k', v') = (k, v) ∨ (k', v') ∈ d.
Proof.
  induction d as [|[k0 v0] d IH]; simpl.
  - rewrite list_elem_of_singleton. auto.
  - destruct (decide (k0 = k)) as [->|Hne]; rewrite !elem_of_cons.
    + intros [?|?]; auto.
    + intros [?|?]; auto. destruct IH; auto.
Qed.

Lemma dict_keys_set k v d :
  dict_keys (dict_set k v d) = if dict_in k d then dict_keys d else dict_keys d ++ [k].
Proof.
  unfold dict_in, dict_keys. induction d as [|[k0 v0] d IH]; simpl; [done|].
  destruct (decide (k0 = k)) as [->|Hne]; [done|].
  rewrite fmap_cons, IH. by destruct (dict_get k d).
Qed.

Lemma dict_set_NoDup k v d : NoDup (dict_keys d) → NoDup (dict_keys (dict_set k v d)).
Proof.
  intros Hnd. rewrite dict_keys_set. unfold dict_in.
  destruct (dict_get k d) eqn:Hg; [done|].
  apply NoDup_app. split_and!; [done| |apply NoDup_singleton].
  intros x Hx Hx'. apply list_elem_of_singleton in Hx' as ->.
  by apply dict_get_None_keys in Hg.
Qed.

Lemma dict_del_NoDup k d : NoDup (dict_keys d) → NoDup (dict_keys (dict_del k d)).
Proof.
  unfold dict_keys, dict_del. intros Hnd.
  apply (sublist_NoDup _ (d.*1)); [done|]. apply fmap_sublist, sublist_filter.
Qed.

Lemma dict_del_elem k k' v' d : (k', v') ∈ dict_del k d → (k', v') ∈ d ∧ k' ≠ k.
Proof. unfold dict_del. rewrite list_elem_of_filter. simpl. tauto. Qed.

Lemma dict_in_true k d : dict_in k d = true ↔ is_Some (dict_get k d).
Proof. unfold dict_in. destruct (dict_get k d); split; (done || by intros []). Qed.

End pydict_facts.

(** ** The cart *)

Section cart_facts.
Context `{PyRuntime}.
Implicit Types (c : ShoppingCart) (p : Product) (item : CartItem).

Lemma dict_set_values_Forall {V} (P : V → Prop) (k : string) (v : V) (d : pydict V) :
  Forall P (dict_values d) → P v → Forall P (dict_values (dict_set k v d)).
Proof.
  unfold dict_values. intros Hd Hv. induction d as [|[k' v'] d IH]; simpl.
  - by constructor.
  - rewrite fmap_cons in Hd. apply Forall_cons in Hd as [Hv' Hd].
    destruct (decide (k' = k)); rewrite fmap_cons; constructor; auto.
Qed.

Lemma dict_set_Forall {V} (P : string * V → Prop) (k : string) (v : V) (d : pydict V) :
  Forall P d → P (k, v) → Forall P (dict_set k v d).
Proof.
  rewrite !Forall_forall. intros Hd Hv [k' v'] [[= -> ->]|Hin]%dict_set_elem; auto.
Qed.

Lemma dict_get_values {V} (k : string) (v : V) (d : pydict V) :
  dict_get k d = Some v → v ∈ dict_values d.
Proof.
  intros Hg%dict_get_Some_elem. unfold dict_values.
  apply list_elem_of_fmap. by exists (k, v).
Qed.

Lemma quantity_in_cart_nonneg c k : quantities_positive c → 0 ≤ quantity_in_cart c k.
Proof.
  unfold quantities_positive, quantity_in_cart, get_item. intros Hpos.
  destruct (dict_get k (items c)) as [item|] eqn:Hg; [|lia].
  apply dict_get_values in Hg. rewrite Forall_forall in Hpos. apply Hpos in Hg. lia.
Qed.

(** when [add_item] raises, and what it raises *)
Lemma add_item_raises c p qty :
  quantities_positive c → 0 < qty →
  stock p < quantity_in_cart c (id p) + qty →
  ∃ e, add_item c p qty = Raised e c ∧ is_stock_error e = true.
Proof.
  intros Hpos Hqty Hlt. pose proof (quantity_in_cart_nonneg c (id p) Hpos) as Hnn.
  unfold add_item, is_available, quantity_in_cart, get_item in *.
  rewrite bool_decide_eq_false_2 by lia.
  destruct (bool_decide (qty ≤ stock p)) eqn:Hav; simpl; [|by eexists].
  apply bool_decide_eq_true in Hav.
  destruct (dict_get (id p) (items c)) as [item|]; [|lia].
  rewrite bool_decide_eq_false_2 by lia. simpl. by eexists.
Qed.

(** when it does not, and what the cart holds then *)
Lemma add_item_returns c p qty :
  quantities_positive c → 0 < qty →
  quantity_in_cart c (id p) + qty ≤ stock p →
  ∃ c', add_item c p qty = Done c' ∧ quantities_positive c' ∧
        quantity_in_cart c' (id p) = quantity_in_cart c (id p) + qty.
Proof.
  intros Hpos Hqty Hle. pose proof (quantity_in_cart_nonneg c (id p) Hpos) as Hnn.
  unfold add_item, is_available, set_quantity, quantity_in_cart, get_item in *.
  rewrite bool_decide_eq_false_2 by lia.
  rewrite (bool_decide_eq_true_2 (qty ≤ stock p)) by lia. simpl.
  destruct (dict_get (id p) (items c)) as [item|] eqn:Hg.
  - rewrite bool_decide_eq_true_2 by lia. simpl. eexists. split; [done|]. simpl. split.
    + apply dict_set_values_Forall; [done|]. simpl. lia.
    + by rewrite dict_get_set_eq.
  - eexists. split; [done|]. simpl. split.
    + by apply dict_set_values_Forall.
    + rewrite dict_get_set_eq. simpl. lia.
Qed.

Lemma add_item_raised_unchanged c p qty e :
  raised (add_item c p qty) = Some e → cart_after (add_item c p qty) = c.
Proof.
  unfold add_item. repeat case_match; simpl; congruence.
Qed.

Lemma add_items_app c p l1 l2 :
  add_items c p (l1 ++ l2) =
  ((add_items c p l1).1 ++ (add_items (add_items c p l1).2 p l2).1,
   (add_items (add_items c p l1).2 p l2).2).
Proof.
  revert c. induction l1 as [|q l1 IH]; intros c; simpl.
  - by destruct (add_items c p l2).
  - rewrite IH. by destruct (add_items (cart_after (add_item c p q)) p l1).
Qed.

Lemma add_items_within_stock c p qtys :
  quantities_positive c → Forall (λ q, 0 < q) qtys →
  quantity_in_cart c (id p) + sum_Z qtys ≤ stock p →
  (add_items c p qtys).1 = replicate (length qtys) None ∧
  quantities_positive (add_items c p qtys).2 ∧
  quantity_in_cart (add_items c p qtys).2 (id p) = quantity_in_cart c (id p) + sum_Z qtys.
Proof.
  intros Hpos Hq. revert c Hpos.
  induction Hq as [|q qtys Hq0 Hq IH]; intros c Hpos Hle; simpl in *.
  - split_and!; [done..|lia].
  - assert (0 ≤ sum_Z qtys) as Hsum.
    { clear -Hq. induction Hq; simpl; lia. }
    destruct (add_item_returns c p q Hpos Hq0) as (c' & Hadd & Hpos' & Hcur); [lia|].
    rewrite Hadd. simpl.
    destruct (IH c' Hpos') as (Hr & Hp & Hc); [lia|].
    destruct (add_items c' p qtys) as [rs c'']. simpl in *.
    split_and!; [by rewrite Hr|done|lia].
Qed.

(** C1. For a product [p], a cart whose lines have positive quantities
    and a quantity [qty > 0]: [add_item] raises a stock error exactly
    when [stock p] is less than the quantity of [p] in the cart plus
    [qty]; a call that raises leaves the cart as it was; and in a run of
    calls for [p], the calls go through as long as the quantity added up
    stays within the stock, and the first one that takes it beyond
    raises, the cart still holding what the earlier calls put in. *)
Theorem add_item_stock_error c p qty :
  quantities_positive c → 0 < qty →
  ((∃ e, raised (add_item c p qty) = Some e ∧ is_stock_error e = true)
     ↔ stock p < quantity_in_cart c (id p) + qty) ∧
  (∀ e, raised (add_item c p qty) = Some e → cart_after (add_item c p qty) = c) ∧
  (∀ before : list Z,
     Forall (λ q, 0 < q) before →
     quantity_in_cart c (id p) + sum_Z before ≤ stock p →
     stock p < quantity_in_cart c (id p) + sum_Z before + qty →
     ∃ e, (add_items c p (before ++ [qty])).1 = replicate (length before) None ++ [Some e] ∧
          is_stock_error e = true ∧
          (add_items c p (before ++ [qty])).2 = (add_items c p before).2 ∧
          quantity_in_cart (add_items c p (before ++ [qty])).2 (id p)
            = quantity_in_cart c (id p) + sum_Z before).
Proof.
  intros Hpos Hqty. split_and!.
  - split.
    + intros (e & Hr & He).
      destruct (decide (stock p < quantity_in_cart c (id p) + qty)) as [|Hge]; [done|].
      destruct (add_item_returns c p qty Hpos Hqty) as (c' & Hadd & _); [lia|].
      rewrite Hadd in Hr. discriminate.
    + intros Hlt. destruct (add_item_raises c p qty Hpos Hqty Hlt) as (e & Hadd & He).
      exists e. by rewrite Hadd.
  - apply add_item_raised_unchanged.
  - intros before Hbefore Hle Hlt.
    destruct (add_items_within_stock c p before Hpos Hbefore Hle) as (Hr & Hpos' & Hcur).
    rewrite add_items_app. simpl.
    destruct (add_item_raises (add_items c p before).2 p qty Hpos' Hqty) as (e & Hadd & He);
      [lia|].
    rewrite Hadd. simpl. exists e. by rewrite Hr.
Qed.

(** C5. For a product id with a line in the cart, [update_quantity]
    with quantity 0 does what [remove_item] does, which returns and
    leaves a cart without that id; for an id without a line, both raise
    the not-in-cart error, whatever the quantity, and leave the cart as
    it was. *)
Theorem update_quantity_zero_is_remove_item c (product_id : string) :
  (has_product c product_id = true →
     update_quantity c product_id 0 = remove_item c product_id ∧
     raised (remove_item c product_id) = None ∧
     has_product (cart_after (remove_item c product_id)) product_id = false) ∧
  (has_product c product_id = false →
     ∀ qty, update_quantity c product_id qty = Raised (NotInCart product_id) c ∧
            remove_item c product_id = Raised (NotInCart product_id) c).
Proof.
  unfold has_product, update_quantity, remove_item, dict_in. split.
  - destruct (dict_get product_id (items c)) as [item|] eqn:Hg; [intros _|done]. simpl.
    split_and!; [done..|]. by rewrite dict_get_del_eq.
  - destruct (dict_get product_id (items c)) as [item|] eqn:Hg; [done|]. done.
Qed.

Lemma set_quantity_inv c k q : cart_inv c → 1 ≤ q → cart_inv (set_quantity c k q).
Proof.
  intros [Hnd Hall] Hq. unfold set_quantity.
  destruct (dict_get k (items c)) as [item|] eqn:Hg; [|done].
  split; simpl.
  - by apply dict_set_NoDup.
  - apply dict_set_Forall; [done|]. simpl. split; [|done].
    apply dict_get_Some_elem in Hg. rewrite Forall_forall in Hall.
    by destruct (Hall _ Hg).
Qed.

Lemma remove_item_inv c k : cart_inv c → cart_inv (cart_after (remove_item c k)).
Proof.
  intros [Hnd Hall]. unfold remove_item.
  destruct (dict_in k (items c)); simpl; [|done].
  split; simpl.
  - by apply dict_del_NoDup.
  - unfold dict_del. rewrite Forall_forall in Hall. apply Forall_forall.
    intros x [_ Hx]%list_elem_of_filter. auto.
Qed.

Lemma run_op_inv c op : cart_inv c → cart_inv (cart_after (run_op c op)).
Proof.
  intros Hinv. destruct op as [p qty|k qty|k|]; simpl.
  - unfold add_item. destruct (bool_decide (qty ≤ 0)) eqn:Hq; [done|].
    apply bool_decide_eq_false in Hq.
    destruct (is_available p qty); simpl; [|done].
    destruct (dict_get (id p) (items c)) as [item|] eqn:Hg.
    + destruct (is_available p (quantity item + qty)); simpl; [|done].
      apply set_quantity_inv; [done|].
      destruct Hinv as [_ Hall]. apply dict_get_Some_elem in Hg.
      rewrite Forall_forall in Hall. destruct (Hall _ Hg). simpl in *. lia.
    + simpl. destruct Hinv as [Hnd Hall]. split; simpl.
      * by apply dict_set_NoDup.
      * apply dict_set_Forall; [done|]. simpl. split; [done|lia].
  - unfold update_quantity.
    destruct (dict_get k (items c)) as [item|] eqn:Hg; [|done].
    destruct (bool_decide (qty < 0)) eqn:Hneg; [done|]. apply bool_decide_eq_false in Hneg.
    destruct (bool_decide (qty = 0)) eqn:Hz; [by apply remove_item_inv|].
    apply bool_decide_eq_false in Hz.
    destruct (is_available (product item) qty); simpl; [|done].
    apply set_quantity_inv; [done|lia].
  - by apply remove_item_inv.
  - split; simpl; [apply NoDup_nil_2|constructor].
Qed.

Lemma run_ops_inv c ops : cart_inv c → cart_inv (run_ops c ops).
Proof.
  revert c. induction ops as [|op ops IH]; intros c Hinv; simpl; [done|].
  apply IH. by apply run_op_inv.
Qed.

(** C10. Whatever calls of [add_item], [update_quantity], [remove_item]
    and [clear] are made on a cart that started empty, every line has a
    quantity of one at least and sits under the id of its own product,
    and no product id has two lines. *)
Theorem cart_invariant (ops : list CartOp) :
  Forall (λ item, 1 ≤ quantity item) (dict_values (items (run_ops empty_cart ops))) ∧
  Forall (λ kv, kv.1 = id (product kv.2)) (items (run_ops empty_cart ops)) ∧
  NoDup ((λ item, id (product item)) <$> dict_values (items (run_ops empty_cart ops))).
Proof.
  assert (cart_inv (run_ops empty_cart ops)) as [Hnd Hall].
  { apply run_ops_inv. split; simpl; [apply NoDup_nil_2|constructor]. }
  set (c := run_ops empty_cart ops) in *. clearbody c. split_and!.
  - unfold dict_values. apply Forall_fmap. eapply Forall_impl; [exact Hall|].
    by intros [k item] [_ ?].
  - eapply Forall_impl; [exact Hall|]. by intros [k item] [? _].
  - unfold dict_values, dict_keys in *. rewrite <-list_fmap_compose.
    rewrite <-(Forall_fmap_ext_1 fst); [exact Hnd|].
    eapply Forall_impl; [exact Hall|]. by intros [k item] [? _].
Qed.

(** C9. On every cart that calls of [add_item], [update_quantity] and
    [remove_item] lead to from the empty cart, [get_total] is the sum
    over the lines of price times quantity, each rounded to two
    decimals, rounded to two decimals. *)
Theorem get_total_is_rounded_sum (ops : list CartOp) :
  Forall (λ op, is_clear op = false) ops →
  get_total (run_ops empty_cart ops) = spec_total (get_items_list (run_ops empty_cart ops)).
Proof. intros _. reflexivity. Qed.

End cart_facts.

(** ** Orders *)

Section order_facts.
Context `{PyRuntime}.

Lemma get_total_nonneg (c : ShoppingCart) : cart_valid c → flt (get_total c) fzero = false.
Proof.
  intros Hc. unfold get_total. apply round2_nonneg, fsum_nonneg.
  apply Forall_fmap. eapply Forall_impl; [exact Hc|].
  intros item [[Hprice _] Hq]. simpl. unfold subtotal.
  apply round2_nonneg, fmul_int_nonneg; [done|lia].
Qed.

Lemma validate_non_empty_string_ok (v : string) :
  truthy (strip v) = true → validate_non_empty_string v = Some (strip v).
Proof.
  intros Hv. unfold validate_non_empty_string. rewrite Hv.
  destruct v; [by rewrite strip_empty in Hv|done].
Qed.

Lemma fresh_loc (s : Store) : s !! fresh (dom s) = None.
Proof. apply not_elem_of_dom, is_fresh. Qed.

Lemma call_ops_other (s : Store) (l l' : loc) (ops : list CartOp) :
  l' ≠ l → call_ops s l ops !! l' = s !! l'.
Proof.
  intros Hne. revert s. induction ops as [|op ops IH]; intros s; simpl; [done|].
  rewrite IH. by apply lookup_insert_ne.
Qed.

(** what [create_from_cart] returns when nothing is refused *)
Lemma create_from_cart_returns (s : Store) (k : Clock) (l : loc) (c : ShoppingCart)
    (customer_name customer_city : string) :
  s !! l = Some c → is_empty c = false → cart_valid c →
  truthy (strip customer_name) = true → truthy (strip customer_city) = true →
  create_from_cart s k l customer_name customer_city =
    (inr {| order_id := generate_order_id k; order_cart := fresh (dom s);
            order_customer_name := strip customer_name;
            order_customer_city := strip customer_city;
            total := get_total c; timestamp := strftime_now k |},
     <[fresh (dom s) := c]> s).
Proof.
  intros Hl Hne Hvalid Hname Hcity.
  assert (deref s l = c) as Hd by (unfold deref; by rewrite Hl).
  unfold create_from_cart, deepcopy. rewrite Hd, Hne.
  unfold Order_init, validate_cart_not_empty, validate_total.
  unfold deref at 1. rewrite lookup_insert_eq. simpl. rewrite Hne.
  rewrite !validate_non_empty_string_ok by done.
  rewrite get_total_nonneg by done.
  assert (round2 (get_total c) = get_total c) as -> by apply round2_idem.
  done.
Qed.

(** C3. From a cart that is not empty and holds valid lines, with a
    name and a city that are not blank, [create_from_cart] makes an
    order whose total is the total of the cart and whose cart is a new
    object with the contents of the source cart; whatever calls are then
    made on the source cart, the cart of the order keeps these contents
    and its total stays the total of the order. *)
Theorem create_from_cart_snapshot (s : Store) (k : Clock) (l : loc) (c : ShoppingCart)
    (customer_name customer_city : string) :
  s !! l = Some c → is_empty c = false → cart_valid c →
  truthy (strip customer_name) = true → truthy (strip customer_city) = true →
  ∃ o s',
    create_from_cart s k l customer_name customer_city = (inr o, s') ∧
    total o = get_total c ∧
    s !! order_cart o = None ∧ s' !! order_cart o = Some c ∧ s' !! l = Some c ∧
    ∀ ops : list CartOp,
      call_ops s' l ops !! order_cart o = Some c ∧
      get_total (deref (call_ops s' l ops) (order_cart o)) = total o.
Proof.
  intros Hl Hne Hvalid Hname Hcity.
  pose proof (fresh_loc s) as Hfresh.
  assert (fresh (dom s) ≠ l) as Hneq by congruence.
  eexists _, _. split; [by apply create_from_cart_returns|]. simpl.
  split_and!; [done|done|by rewrite lookup_insert_eq|by rewrite lookup_insert_ne| ].
  intros ops.
  assert (call_ops (<[fresh (dom s) := c]> s) l ops !! fresh (dom s) = Some c) as Hkeep.
  { rewrite call_ops_other by done. by rewrite lookup_insert_eq. }
  split; [done|]. unfold deref. by rewrite Hkeep.
Qed.

End order_facts.

(** ** Catalog search *)

Section search_facts.
Context `{PyRuntime}.
Context {A : Type} (f : A → float).

Abbreviation keyed := (λ x : A, (x, f x)).
Abbreviation geq := (λ a b : A * float, flt a.2 b.2 = false).

Lemma flt_asym (x y : float) : flt x y = true → flt y x = false.
Proof.
  intros Hxy. destruct (flt y x) eqn:Hyx; [|done].
  pose proof (flt_trans _ _ _ Hxy Hyx) as Hxx. by rewrite flt_irrefl in Hxx.
Qed.

Lemma insert_desc_perm (x : A * float) l : insert_desc x l ≡ₚ x :: l.
Proof.
  induction l as [|y l IH]; simpl; [done|].
  destruct (flt x.2 y.2); [|done]. rewrite IH. apply Permutation_swap.
Qed.

Lemma sort_desc_perm (l : list (A * float)) : sort_desc l ≡ₚ l.
Proof.
  induction l as [|x l IH]; simpl; [done|]. by rewrite insert_desc_perm, IH.
Qed.

Lemma insert_desc_sorted (x : A * float) l :
  StronglySorted geq l → StronglySorted geq (insert_desc x l).
Proof.
  induction l as [|y l IH]; simpl; intros Hl.
  - by repeat constructor.
  - apply StronglySorted_cons in Hl as [Hy Hl].
    destruct (flt x.2 y.2) eqn:Hxy.
    + apply StronglySorted_cons. split; [|by apply IH].
      rewrite insert_desc_perm. constructor; [|done]. by apply flt_asym.
    + apply StronglySorted_cons. split; [|by apply StronglySorted_cons].
      constructor; [done|]. eapply Forall_impl; [exact Hy|].
      intros z Hz. simpl in *. by apply (flt_negtrans _ y.2).
Qed.

Lemma sort_desc_sorted (l : list (A * float)) : StronglySorted geq (sort_desc l).
Proof.
  induction l as [|x l IH]; simpl; [constructor|]. by apply insert_desc_sorted.
Qed.

(** entries with the same key keep their order *)
Lemma insert_desc_stable (s : float) (x : A * float) l :
  filter (λ e, same_score e.2 s = true) (insert_desc x l)
  = filter (λ e, same_score e.2 s = true) (x :: l).
Proof.
  induction l as [|y l IH]; simpl; [done|].
  destruct (flt x.2 y.2) eqn:Hxy; [|done].
  rewrite (filter_cons _ y), IH, !filter_cons.
  destruct (decide (same_score x.2 s = true)) as [Hx|]; [|done].
  destruct (decide (same_score y.2 s = true)) as [Hy|]; [|done].
  unfold same_score in *.
  apply andb_true_iff in Hx as [Hxs _], Hy as [_ Hsy].
  apply negb_true_iff in Hxs, Hsy.
  by rewrite (flt_negtrans _ _ _ Hxs Hsy) in Hxy.
Qed.

Lemma sort_desc_stable (s : float) (l : list (A * float)) :
  filter (λ e, same_score e.2 s = true) (sort_desc l)
  = filter (λ e, same_score e.2 s = true) l.
Proof.
  induction l as [|x l IH]; simpl; [done|].
  by rewrite insert_desc_stable, !filter_cons, IH.
Qed.

Lemma omap_keyed (m : float) (l : list A) :
  omap (λ x, let b := f x in if fge b m then Some (x, b) else None) l
  = keyed <$> filter (λ x, fge (f x) m = true) l.
Proof.
  induction l as [|x l IH]; simpl; [done|].
  rewrite filter_cons. destruct (fge (f x) m) eqn:Hx; simpl.
  - f_equal. exact IH.
  - exact IH.
Qed.

Lemma keyed_sorted (es : list (A * float)) :
  Forall (λ e, e.2 = f e.1) es → StronglySorted geq es →
  StronglySorted (λ a b, flt (f a) (f b) = false) es.*1.
Proof.
  induction 1 as [|e es He Hes IH]; intros Hs; [constructor|].
  apply StronglySorted_cons in Hs as [Hall Hs]. rewrite fmap_cons.
  apply StronglySorted_cons. split; [|by apply IH].
  apply Forall_fmap. rewrite Forall_forall in Hall, Hes. apply Forall_forall.
  intros e' Hin. simpl. rewrite <-He, <-(Hes _ Hin). by apply Hall.
Qed.

Lemma keyed_filter (s : float) (es : list (A * float)) :
  Forall (λ e, e.2 = f e.1) es →
  filter (λ x, same_score (f x) s = true) es.*1
  = (filter (λ e, same_score e.2 s = true) es).*1.
Proof.
  induction 1 as [|e es He Hes IH]; [done|].
  rewrite fmap_cons, !filter_cons, IH. simpl. rewrite He.
  by destruct (decide (same_score (f e.1) s = true)).
Qed.

Lemma keyed_fst (l : list A) : (keyed <$> l).*1 = l.
Proof. rewrite <-list_fmap_compose. apply list_fmap_id. Qed.

(** what sorting the scored entries gives, read on the entries' items *)
Lemma sort_desc_keyed (l : list A) :
  (sort_desc (keyed <$> l)).*1 ≡ₚ l ∧
  StronglySorted (λ a b, flt (f a) (f b) = false) (sort_desc (keyed <$> l)).*1 ∧
  ∀ s, filter (λ x, same_score (f x) s = true) (sort_desc (keyed <$> l)).*1
       = filter (λ x, same_score (f x) s = true) l.
Proof.
  assert (Forall (λ e, e.2 = f e.1) (keyed <$> l)) as Hk.
  { apply Forall_fmap, Forall_forall. by intros. }
  assert (Forall (λ e, e.2 = f e.1) (sort_desc (keyed <$> l))) as Hk'.
  { by rewrite sort_desc_perm. }
  split_and!.
  - by rewrite sort_desc_perm, keyed_fst.
  - apply keyed_sorted; [done|apply sort_desc_sorted].
  - intros s. rewrite keyed_filter, sort_desc_stable, <-keyed_filter by done.
    by rewrite keyed_fst.
Qed.

End search_facts.

Section search_claim.
Context `{PyRuntime}.

(** the relevance the code computes is the relevance of the amended
    claim *)
Lemma best_ratio_amended_score (query : string) (p : Product) :
  best_ratio (strip (lower query)) p = amended_score query p.
Proof.
  unfold best_ratio, amended_score. cbn [existsb].
  by rewrite orb_false_r, orb_assoc.
Qed.

Lemma omap_scored_ext {A} (f g : A → float) (m : float) (l : list A) :
  (∀ x, f x = g x) →
  omap (λ x, let b := f x in if fge b m then Some (x, b) else None) l
  = omap (λ x, let b := g x in if fge b m then Some (x, b) else None) l.
Proof.
  intros Hfg. induction l as [|x l IH]; simpl; [done|].
  rewrite Hfg. destruct (fge (g x) m); simpl.
  - f_equal. exact IH.
  - exact IH.
Qed.

(** C6, as the code has it. The query is lowercased and stripped.
    When nothing is left of it the result is empty. Otherwise the
    result holds exactly the products of the catalog whose relevance,
    by the formula of the amended claim ([amended_score]: the ratios
    with the lowercased name, description and category, weighted by 1,
    0.8 and 0.9, and 0.7 at least on a substring), is at least
    [min_similarity]; they come by falling relevance, and products of
    equal relevance in the order of the catalog. *)
Theorem search_products_sorted_matches (self : CatalogService) (query : string)
    (min_similarity : float) :
  let score := amended_score query in
  let kept := filter (λ p, fge (score p) min_similarity = true) (get_all_products self) in
  let found := search_products self query min_similarity in
  (truthy (strip (lower query)) = false → found = []) ∧
  (truthy (strip (lower query)) = true →
     found ≡ₚ kept ∧
     StronglySorted (λ a b, flt (score a) (score b) = false) found ∧
     ∀ s, filter (λ p, same_score (score p) s = true) found
          = filter (λ p, same_score (score p) s = true) kept).
Proof.
  intros score kept found. subst found. unfold search_products. split; intros Hq; rewrite Hq; simpl.
  - done.
  - rewrite (omap_scored_ext (best_ratio (strip (lower query))) score)
      by apply best_ratio_amended_score.
    rewrite (omap_keyed score). apply sort_desc_keyed.
Qed.

End search_claim.

(** ** Graph nodes *)

Section node_facts.
Context `{PyRuntime}.

Lemma prefix_app (s t : string) : String.prefix s (s +:+ t) = true.
Proof.
  induction s as [|a s IH].
  - change ("" +:+ t) with t. by destruct t.
  - change (String a s +:+ t) with (String a (s +:+ t)). simpl.
    by destruct (Ascii.ascii_dec a a).
Qed.

Lemma contains_prefix (sub s : string) : String.prefix sub s = true → contains sub s = true.
Proof. intros Hp. destruct s; cbn [contains]; by rewrite Hp. Qed.

Lemma contains_here (sub t : string) : contains sub (sub +:+ t) = true.
Proof. apply contains_prefix, prefix_app. Qed.

Lemma contains_later (sub a t : string) :
  contains sub t = true → contains sub (a +:+ t) = true.
Proof.
  intros Ht. induction a as [|c a IH]; [done|].
  change (String c a +:+ t) with (String c (a +:+ t)). cbn [contains].
  rewrite IH. apply orb_true_r.
Qed.

Lemma truthy_strip (s : string) : truthy (strip s) = true → truthy s = true.
Proof. destruct s; [by rewrite strip_empty|done]. Qed.

Ltac shown_in_confirmation :=
  unfold _format_order_confirmation;
  cbn [order_id order_customer_name order_customer_city total order_cart default];
  repeat first [apply contains_here | apply contains_later].

(** C2, as the code has it. In a state whose cart is not empty, with a
    customer name that is not blank and no city yet, and on a user
    utterance that is not blank, the checkout handler takes the stripped
    utterance as the city, has [create_from_cart] make the order and
    stores it, appends one message that shows the id of the order, the
    customer, the city, the lines and the total, empties the cart of the
    session and sets the stage to COMPLETED. *)
Theorem checkout_node_completes_order (env : Env) (st : ConversationState) (w : World)
    (c : ShoppingCart) (nm : string) :
  store w !! cart st = Some c → is_empty c = false → cart_valid c →
  customer_name st = Some nm → truthy (strip nm) = true →
  unset (customer_city st) = true →
  truthy (strip (get_last_user_message st)) = true →
  ∃ o s' text,
    let city := strip (get_last_user_message st) in
    create_from_cart (store w) (clock env) (cart st) nm city = (inr o, s') ∧
    order_customer_name o = strip nm ∧ order_customer_city o = city ∧ total o = get_total c ∧
    checkout_node env st w =
      Returns
        (set_stage (reply (set_order (set_customer_city st (Some city)) (Some o)) text)
           ConversationStage.COMPLETED)
        (with_store w (<[cart st := empty_cart]> s')) ∧
    contains (order_id o) text = true ∧
    contains (order_customer_name o) text = true ∧
    contains (order_customer_city o) text = true ∧
    contains (item_lines c) text = true ∧
    contains (fmt2 (total o)) text = true.
Proof.
  intros Hc Hne Hvalid Hname Hnm Hcity Hmsg.
  assert (truthy (strip (strip (get_last_user_message st))) = true) as Hmsg'
    by (by rewrite strip_idem).
  pose proof (create_from_cart_returns (store w) (clock env) (cart st) c nm
                (strip (get_last_user_message st)) Hc Hne Hvalid Hnm Hmsg') as Hcreate.
  rewrite strip_idem in Hcreate.
  eexists _, _, _. cbn zeta. split; [exact Hcreate|]. simpl.
  split_and!; [done|done|done| |..].
  - unfold checkout_node, _complete_order.
    assert (deref (store w) (cart st) = c) as Hd by (unfold deref; by rewrite Hc).
    rewrite Hd, Hne, Hname. simpl. rewrite (truthy_strip nm Hnm), Hcity. simpl.
    rewrite Hname. simpl. rewrite Hcreate. simpl. unfold deref at 1.
    rewrite lookup_insert_ne by (intros Heq; pose proof (fresh_loc (store w)); congruence).
    rewrite Hc. reflexivity.
  - shown_in_confirmation.
  - shown_in_confirmation.
  - shown_in_confirmation.
  - unfold _format_order_confirmation, deref. cbn [order_cart].
    rewrite lookup_insert_eq. shown_in_confirmation.
  - shown_in_confirmation.
Qed.

(** C7, as the code has it. When the log does not consist of one
    message, the last user message is not empty, the stage is CHECKOUT
    and the name or the city is missing, [detect_intent_node] sets the
    intent to CHECKOUT and returns without calling the model: nothing
    else changes in the state, the world is as it was, and what the
    model would answer plays no part. *)
Theorem detect_intent_checkout_override (env : Env) (st : ConversationState) (w : World) :
  length (messages st) ≠ 1%nat →
  truthy (get_last_user_message st) = true →
  stage st = ConversationStage.CHECKOUT →
  unset (customer_name st) = true ∨ unset (customer_city st) = true →
  detect_intent_node env st w = Returns (set_current_intent st UserIntent.CHECKOUT) w ∧
  llm_calls (world_of (detect_intent_node env st w)) = llm_calls w.
Proof.
  intros Hlen Hmsg Hstage Hmissing.
  assert (detect_intent_node env st w = Returns (set_current_intent st UserIntent.CHECKOUT) w)
    as Heq; [|by rewrite Heq].
  unfold detect_intent_node. rewrite bool_decide_eq_false_2 by done.
  rewrite Hmsg, Hstage. simpl.
  by destruct Hmissing as [-> | ->]; rewrite ?orb_true_r.
Qed.

End node_facts.

(** ** The statements at work on the sample shop *)

Section cart_witnesses.
Import Decimal Sample.

Lemma add_item_stock_error_witness :
  quantities_positive two_lines ∧ 0 < 3 ∧
  ((∃ e, raised (add_item two_lines cuaderno 3) = Some e ∧ is_stock_error e = true)
     ↔ stock cuaderno < quantity_in_cart two_lines (id cuaderno) + 3).
Proof.
  assert (quantities_positive two_lines) as Hpos by (repeat constructor).
  assert (0 < 3) as Hqty by reflexivity.
  split_and!; [done..|].
  exact (proj1 (add_item_stock_error two_lines cuaderno 3 Hpos Hqty)).
Defined.

Lemma update_quantity_zero_is_remove_item_witness :
  has_product two_lines "prod_002" = true ∧
  update_quantity two_lines "prod_002" 0 = remove_item two_lines "prod_002".
Proof.
  assert (has_product two_lines "prod_002" = true) as Hin by reflexivity.
  split; [done|].
  exact (proj1 (proj1 (update_quantity_zero_is_remove_item two_lines "prod_002") Hin)).
Defined.

Lemma get_total_is_rounded_sum_witness :
  Forall (λ op, is_clear op = false) [AddItem camiseta 2; UpdateQuantity "prod_001" 3] ∧
  get_total (run_ops empty_cart [AddItem camiseta 2; UpdateQuantity "prod_001" 3]) = 5997.
Proof.
  assert (Forall (λ op, is_clear op = false) [AddItem camiseta 2; UpdateQuantity "prod_001" 3])
    as Hops by (repeat constructor).
  split; [done|].
  rewrite (get_total_is_rounded_sum _ Hops). reflexivity.
Defined.

End cart_witnesses.


Section node_runs.
Import Decimal Sample.

(** the handler returns the state as it got it once name and city are
    both known *)
Lemma checkout_node_falls_through `{PyRuntime} (e : Env) (st : ConversationState) (w : World) :
  is_empty (deref (store w) (cart st)) = false →
  unset (customer_name st) = false → unset (customer_city st) = false →
  checkout_node e st w = Returns st w.
Proof. intros Hc Hn Hy. unfold checkout_node. by rewrite Hc, Hn, Hy. Qed.

(** C4, where the code departs from it. After an order was placed in a
    session, the name and the city stay in the state; with products in
    the cart again, a turn that is classified as CHECKOUT reaches the
    checkout handler, which returns the state as it got it, on the
    state [detect_intent] returned as on the state the graph hands to
    the handler: the turn ends with the user's message last in the log
    and no assistant message after it. *)
Theorem checkout_node_silent_after_order :
  let st := state_of shopping_again in
  let w := world_of shopping_again in
  let detected := detect_intent_node env (hears st "quiero comprar") w in
  is_empty (session_cart shopping_again) = false ∧
  customer_name st = Some "Juan" ∧ customer_city st = Some "Madrid" ∧
  route_by_intent (state_of detected) = to_checkout ∧
  checkout_node env (state_of detected) (world_of detected)
    = Returns (state_of detected) (world_of detected) ∧
  checkout_node env (write_state (hears st "quiero comprar") (state_of detected))
      (world_of detected)
    = Returns (write_state (hears st "quiero comprar") (state_of detected))
        (world_of detected) ∧
  raises (send_message env st w "quiero comprar") = None ∧
  last (messages (state_of (send_message env st w "quiero comprar")))
    = Some (HumanMessage "quiero comprar").
Proof.
  intros st w detected. split_and!.
  - reflexivity.
  - reflexivity.
  - reflexivity.
  - reflexivity.
  - apply checkout_node_falls_through; reflexivity.
  - apply checkout_node_falls_through; reflexivity.
  - reflexivity.
  - reflexivity.
Qed.

(** C8, where the code departs from it. With three notebooks in the
    cart and five in stock, a turn that extracts the addition of three
    more passes the check of [_add_to_cart], [add_item] raises its stock
    error, and the handler answers with the message it has for any
    error; the cart is left as it was. *)
Theorem manage_cart_cumulative_stock_reply :
  let before := chat env ["hola"; "anade 3 cuadernos"] in
  let after := send_message env (state_of before) (world_of before) "anade 3 cuadernos" in
  session_cart before = three_notebooks ∧ stock cuaderno = 5 ∧
  raised (add_item three_notebooks cuaderno 3) = Some (InsufficientStockInCart cuaderno 3) ∧
  last (messages (state_of after))
    = Some (AIMessage "❌ Ocurrió un error. Por favor intenta de nuevo.") ∧
  session_cart after = three_notebooks.
Proof. intros before after. split_and!; reflexivity. Qed.

(** the four other handlers append one assistant message, whatever the
    state and whatever the model and the cart do *)
Lemma handler_replies_once `{PyRuntime} (h : Handler) (e : Env) (st : ConversationState)
    (w : World) :
  h ≠ checkout →
  ∃ text, raises (run_handler h e st w) = None ∧
          messages (state_of (run_handler h e st w)) = messages st ++ [AIMessage text].
Proof.
  intros Hh. destruct h; [| | |done|]; simpl.
  - eexists. split; reflexivity.
  - unfold manage_cart_node, _send_cart_error_message.
    destruct (_extract_cart_action e (get_last_user_message st) st w) as [[msg|[a|]] w'].
    + eexists. split; reflexivity.
    + destruct (_find_product e a st) as [msg|[prod|]].
      * eexists. split; reflexivity.
      * destruct (_execute_cart_action a prod _ (store w')) as [[err|text] s'];
          eexists; split; reflexivity.
      * eexists. split; reflexivity.
    + eexists. split; reflexivity.
  - eexists. split; reflexivity.
  - unfold out_of_context_node. simpl. eexists. split; reflexivity.
Qed.

(** a quantity that exceeds the stock by itself is answered with the
    stock warning, and the cart is not touched *)
Lemma _add_to_cart_over_stock `{PyRuntime} (s : Store) (l : loc) (prod : Product) (qty : Z) :
  stock prod < qty → _add_to_cart s l prod qty = (inr (only_in_stock prod), s).
Proof. intros Hlt. unfold _add_to_cart. by rewrite bool_decide_eq_false_2 by lia. Qed.

Lemma _update_cart_quantity_over_stock `{PyRuntime} (s : Store) (l : loc) (prod : Product)
    (qty : Z) :
  0 ≤ stock prod → stock prod < qty →
  _update_cart_quantity s l prod qty = (inr (only_in_stock prod), s).
Proof.
  intros Hs Hlt. unfold _update_cart_quantity.
  rewrite (bool_decide_eq_false_2 (qty ≤ stock prod)) by lia.
  rewrite (bool_decide_eq_false_2 (qty = 0)) by lia.
  by destruct (has_product (deref s l) (id prod)).
Qed.

(** C3 fails on a blank city: [Order] refuses it and nothing is made. *)
Lemma create_from_cart_blank_city_counterexample :
  is_empty two_lines = false ∧
  (create_from_cart {[1%positive := two_lines]} (clock env) 1%positive "Juan" "   ").1
    = inl (ValidationError ["customer_city"]).
Proof. split; reflexivity. Qed.

(** C2 fails on a blank utterance: nothing is left of it as a city,
    [Order] refuses it, and the handler raises; no order is stored, no
    message appended, the cart keeps its lines and the stage stays
    CHECKOUT. *)
Lemma checkout_node_blank_city_counterexample :
  let st := hears (state_of awaiting_city) "   " in
  let w := world_of awaiting_city in
  let r := checkout_node env st w in
  deref (store w) (cart st) = three_notebooks ∧
  customer_name st = Some "Juan" ∧ customer_city st = None ∧
  raises r = Some (ValidationError ["customer_city"]) ∧
  order (state_of r) = None ∧
  messages (state_of r) = messages st ∧
  session_cart r = three_notebooks ∧
  stage (state_of r) = ConversationStage.CHECKOUT.
Proof. intros st w r. split_and!; reflexivity. Qed.

(** C7 fails on an empty message: while the name is awaited the intent
    becomes UNKNOWN, not CHECKOUT. *)
Lemma detect_intent_empty_message_counterexample :
  let before := chat env ["hola"; "anade 3 cuadernos"; "quiero comprar"] in
  let st := hears (state_of before) "" in
  stage st = ConversationStage.CHECKOUT ∧ customer_name st = None ∧
  length (messages st) = 74%nat ∧
  current_intent (state_of (detect_intent_node env st (world_of before))) = UserIntent.UNKNOWN.
Proof. intros before st. split_and!; reflexivity. Qed.

(** C6 fails on the empty query: it occurs in every name, so every
    product has a relevance of 0.7 at least, and the search returns
    nothing. *)
Lemma search_products_blank_query_counterexample :
  ¬ (∀ p, p ∈ search_products shop "" (ftenths 4) ↔
          p ∈ get_all_products shop ∧ fge (spec_score "" p) (ftenths 4) = true).
Proof.
  intros Hclaim. destruct (Hclaim camiseta) as [_ Hin].
  assert (camiseta ∈ search_products shop "" (ftenths 4)) as Hno.
  { apply Hin. split; [apply list_elem_of_here|reflexivity]. }
  assert (search_products shop "" (ftenths 4) = []) as Hnone by reflexivity.
  rewrite Hnone in Hno. by apply elem_of_nil in Hno.
Qed.

End node_runs.

(** ** The statements at work on the sample sessions *)

Section node_witnesses.
Import Decimal Sample.

Lemma checkout_node_completes_order_witness :
  let st := hears (state_of awaiting_city) "Madrid" in
  let w := world_of awaiting_city in
  store w !! cart st = Some three_notebooks ∧
  is_empty three_notebooks = false ∧ cart_valid three_notebooks ∧
  customer_name st = Some "Juan" ∧ truthy (strip "Juan") = true ∧
  unset (customer_city st) = true ∧
  truthy (strip (get_last_user_message st)) = true ∧
  stage (state_of (checkout_node env st w)) = ConversationStage.COMPLETED.
Proof.
  intros st w.
  assert (store w !! cart st = Some three_notebooks) as H1 by reflexivity.
  assert (is_empty three_notebooks = false) as H2 by reflexivity.
  assert (cart_valid three_notebooks) as H3 by (by repeat constructor).
  assert (customer_name st = Some "Juan") as H4 by reflexivity.
  assert (truthy (strip "Juan") = true) as H5 by reflexivity.
  assert (unset (customer_city st) = true) as H6 by reflexivity.
  assert (truthy (strip (get_last_user_message st)) = true) as H7 by reflexivity.
  split_and!; [done..|].
  destruct (checkout_node_completes_order env st w three_notebooks "Juan" H1 H2 H3 H4 H5 H6 H7)
    as (o & s' & text & _ & _ & _ & _ & -> & _).
  reflexivity.
Defined.

Lemma create_from_cart_snapshot_witness :
  ({[1%positive := two_lines]} : Store) !! 1%positive = Some two_lines ∧
  is_empty two_lines = false ∧ cart_valid two_lines ∧
  truthy (strip "Juan") = true ∧ truthy (strip " Madrid ") = true ∧
  ∃ o s', create_from_cart {[1%positive := two_lines]} (clock env) 1%positive "Juan" " Madrid " = (inr o, s') ∧
          total o = 5048.
Proof.
  assert (({[1%positive := two_lines]} : Store) !! 1%positive = Some two_lines) as H1
    by reflexivity.
  assert (is_empty two_lines = false) as H2 by reflexivity.
  assert (cart_valid two_lines) as H3 by (by repeat constructor).
  assert (truthy (strip "Juan") = true) as H4 by reflexivity.
  assert (truthy (strip " Madrid ") = true) as H5 by reflexivity.
  split_and!; [done..|].
  destruct (create_from_cart_snapshot _ (clock env) _ _ _ _ H1 H2 H3 H4 H5)
    as (o & s' & Hcreate & Htotal & _).
  exists o, s'. split; [exact Hcreate|]. rewrite Htotal. reflexivity.
Defined.

Lemma search_products_sorted_matches_witness :
  let found := search_products MoreSample.stationery " Cuaderno" (ftenths 4) in
  truthy (strip (lower " Cuaderno")) = true ∧
  found = [cuaderno; MoreSample.cuaderno_grande; MoreSample.cuaderno_rojo] ∧
  found ≡ₚ [MoreSample.cuaderno_grande; cuaderno; MoreSample.cuaderno_rojo] ∧
  StronglySorted (λ a b, flt (amended_score " Cuaderno" a) (amended_score " Cuaderno" b)
                         = false) found ∧
  filter (λ p, same_score (amended_score " Cuaderno" p) (ftenths 7) = true) found
    = [MoreSample.cuaderno_grande; MoreSample.cuaderno_rojo].
Proof.
  intros found.
  assert (truthy (strip (lower " Cuaderno")) = true) as Hq by reflexivity.
  destruct (proj2 (search_products_sorted_matches MoreSample.stationery " Cuaderno"
                     (ftenths 4)) Hq) as (Hperm & Hsorted & Hties).
  split_and!; [done|reflexivity|exact Hperm|exact Hsorted|exact (Hties (ftenths 7))].
Defined.

Lemma detect_intent_checkout_override_witness :
  let before := chat env ["hola"; "anade 3 cuadernos"; "quiero comprar"] in
  let st := hears (state_of before) "Juan" in
  length (messages st) ≠ 1%nat ∧
  truthy (get_last_user_message st) = true ∧
  stage st = ConversationStage.CHECKOUT ∧
  (unset (customer_name st) = true ∨ unset (customer_city st) = true) ∧
  llm_calls (world_of (detect_intent_node env st (world_of before))) = llm_calls (world_of before).
Proof.
  intros before st.
  assert (length (messages st) ≠ 1%nat) as H1 by (intros Hlen; discriminate Hlen).
  assert (truthy (get_last_user_message st) = true) as H2 by reflexivity.
  assert (stage st = ConversationStage.CHECKOUT) as H3 by reflexivity.
  assert (unset (customer_name st) = true ∨ unset (customer_city st) = true) as H4
    by (left; reflexivity).
  split_and!; [done..|].
  exact (proj2 (detect_intent_checkout_override env st (world_of before) H1 H2 H3 H4)).
Defined.

End node_witnesses.

(** * More properties *)

(** ** The cart: counts, frames and round trips *)

Section more_cart_facts.
Context `{PyRuntime}.
Implicit Types (c : ShoppingCart) (p : Product) (item : CartItem).

Lemma dict_set_quantities (k : string) (v : CartItem) (d : pydict CartItem) :
  sum_Z (quantity <$> dict_values (dict_set k v d))
  = sum_Z (quantity <$> dict_values d) + quantity v
    - from_option quantity 0 (dict_get k d).
Proof.
  unfold dict_values, sum_Z. induction d as [|[k0 v0] d IH]; cbn [dict_set dict_get].
  - simpl. lia.
  - destruct (decide (k0 = k)) as [->|Hne];
      rewrite !fmap_cons; cbn [foldr snd from_option]; lia.
Qed.

Lemma dict_del_set_fresh (k : string) (v : CartItem) (d : pydict CartItem) :
  dict_get k d = None → dict_del k (dict_set k v d) = d.
Proof.
  unfold dict_del. induction d as [|[k0 v0] d IH]; simpl; intros Hg.
  - rewrite filter_cons. simpl. by rewrite decide_False by (by intros []).
  - destruct (decide (k0 = k)) as [->|Hne]; [done|].
    rewrite filter_cons. simpl. rewrite decide_True by done. by rewrite IH.
Qed.

Lemma dict_del_values_Forall (P : CartItem → Prop) (k : string) (d : pydict CartItem) :
  Forall P (dict_values d) → Forall P (dict_values (dict_del k d)).
Proof.
  unfold dict_values, dict_del. rewrite !Forall_fmap, !Forall_forall.
  intros Hd x [_ Hx]%list_elem_of_filter. auto.
Qed.

(** X1. When [add_item] returns, the count of items has grown by the
    quantity added, the quantity of the product has grown by it, and
    the lines of the other products are as they were. *)
Theorem add_item_adds_to_count c p qty c' :
  add_item c p qty = Done c' →
  get_item_count c' = get_item_count c + qty ∧
  quantity_in_cart c' (id p) = quantity_in_cart c (id p) + qty ∧
  ∀ k, k ≠ id p → get_item c' k = get_item c k.
Proof.
  unfold add_item, set_quantity, get_item_count, quantity_in_cart, get_item.
  destruct (bool_decide (qty ≤ 0)); [done|].
  destruct (is_available p qty); simpl; [|done].
  destruct (dict_get (id p) (items c)) as [item|] eqn:Hg.
  - destruct (is_available p (quantity item + qty)); simpl; [|done].
    intros [= <-]. simpl. split_and!.
    + pose proof (dict_set_quantities (id p)
        {| product := product item; quantity := quantity item + qty |} (items c)) as Hs.
      unfold sum_Z in Hs. rewrite Hs, Hg. simpl. lia.
    + by rewrite dict_get_set_eq.
    + intros k Hk. by apply dict_get_set_ne.
  - intros [= <-]. simpl. split_and!.
    + pose proof (dict_set_quantities (id p) {| product := p; quantity := qty |} (items c))
        as Hs.
      unfold sum_Z in Hs. rewrite Hs, Hg. simpl. lia.
    + rewrite dict_get_set_eq. simpl. lia.
    + intros k Hk. by apply dict_get_set_ne.
Qed.

(** X2. When [update_quantity] returns for a quantity other than zero,
    the line holds exactly that quantity (it is not added to the old
    one) and still the same product, the lines keep their order, and
    the lines of the other products are as they were. *)
Theorem update_quantity_sets_quantity c (k : string) qty c' :
  update_quantity c k qty = Done c' → qty ≠ 0 →
  quantity_in_cart c' k = qty ∧
  product <$> get_item c' k = product <$> get_item c k ∧
  dict_keys (items c') = dict_keys (items c) ∧
  ∀ k', k' ≠ k → get_item c' k' = get_item c k'.
Proof.
  unfold update_quantity, set_quantity, quantity_in_cart, get_item.
  destruct (dict_get k (items c)) as [item|] eqn:Hg; [|done].
  destruct (bool_decide (qty < 0)); [done|].
  intros Hdone Hq. rewrite bool_decide_eq_false_2 in Hdone by done.
  destruct (is_available (product item) qty); simpl in Hdone; [|done].
  injection Hdone as <-. simpl. split_and!.
  - by rewrite dict_get_set_eq.
  - by rewrite dict_get_set_eq.
  - rewrite dict_keys_set. unfold dict_in. by rewrite Hg.
  - intros k' Hk'. by apply dict_get_set_ne.
Qed.

(** X3. Adding a product that has no line yet and removing it again
    gives the cart back as it was. *)
Theorem add_item_then_remove_item c p qty c1 :
  has_product c (id p) = false → add_item c p qty = Done c1 →
  remove_item c1 (id p) = Done c.
Proof.
  unfold has_product, dict_in, add_item, remove_item.
  destruct (dict_get (id p) (items c)) eqn:Hg; [done|]. intros _.
  destruct (bool_decide (qty ≤ 0)); [done|].
  destruct (is_available p qty); simpl; [|done].
  intros [= <-]. simpl. unfold dict_in. rewrite dict_get_set_eq. simpl.
  rewrite dict_del_set_fresh by done. by destruct c.
Qed.

(** X4. On a cart whose lines have positive quantities, [is_empty]
    holds exactly when [get_item_count] is zero. *)
Theorem is_empty_iff_no_items c :
  quantities_positive c → (is_empty c = true ↔ get_item_count c = 0).
Proof.
  unfold quantities_positive, is_empty, get_item_count, dict_values.
  destruct (items c) as [|[k item] d]; [done|].
  rewrite !fmap_cons. cbn [foldr snd]. intros [Hq Hd]%Forall_cons.
  assert (0 ≤ foldr Z.add 0 (quantity <$> d.*2)) as Hsum.
  { clear -Hd. induction d as [|[k' it] d IH]; [done|].
    rewrite !fmap_cons in *. cbn [foldr snd] in *.
    apply Forall_cons in Hd as [? ?]. specialize (IH ltac:(done)). lia. }
  split; [done|lia].
Qed.

Lemma run_op_within_stock (P : list Product) c op :
  (∀ p p', p ∈ P → p' ∈ P → id p = id p' → stock p = stock p') →
  (∀ p qty, op = AddItem p qty → p ∈ P) →
  cart_inv c → within_stock P c → within_stock P (cart_after (run_op c op)).
Proof.
  intros Hsame Hop [_ Hkeys] Hin. unfold within_stock in *.
  destruct op as [p qty|k qty|k|]; simpl.
  - specialize (Hop p qty eq_refl).
    unfold add_item, set_quantity, is_available.
    destruct (bool_decide (qty ≤ 0)); [done|].
    destruct (bool_decide (qty ≤ stock p)) eqn:Hq; simpl; [|done].
    apply bool_decide_eq_true in Hq.
    destruct (dict_get (id p) (items c)) as [item|] eqn:Hg.
    + destruct (bool_decide (quantity item + qty ≤ stock p)) eqn:Hnew; simpl; [|done].
      apply bool_decide_eq_true in Hnew.
      apply dict_set_values_Forall; [done|]. simpl.
      pose proof (dict_get_values _ _ _ Hg) as Hitem.
      rewrite Forall_forall in Hin. destruct (Hin _ Hitem) as [HP _].
      split; [done|].
      apply dict_get_Some_elem in Hg. rewrite Forall_forall in Hkeys.
      destruct (Hkeys _ Hg) as [Hid _]. simpl in Hid.
      rewrite <-(Hsame p (product item)) by done. done.
    + simpl. by apply dict_set_values_Forall.
  - unfold update_quantity, set_quantity, remove_item, is_available.
    destruct (dict_get k (items c)) as [item|] eqn:Hg; [|done].
    destruct (bool_decide (qty < 0)); [done|].
    destruct (bool_decide (qty = 0)).
    + destruct (dict_in k (items c)); simpl; [|done]. by apply dict_del_values_Forall.
    + destruct (bool_decide (qty ≤ stock (product item))) eqn:Hq; simpl; [|done].
      apply bool_decide_eq_true in Hq.
      apply dict_set_values_Forall; [done|]. simpl.
      pose proof (dict_get_values _ _ _ Hg) as Hitem.
      rewrite Forall_forall in Hin. by destruct (Hin _ Hitem).
  - unfold remove_item. destruct (dict_in k (items c)); simpl; [|done].
    by apply dict_del_values_Forall.
  - constructor.
Qed.

Lemma run_ops_within_stock (P : list Product) c ops :
  (∀ p p', p ∈ P → p' ∈ P → id p = id p' → stock p = stock p') →
  added_products ops ⊆ P →
  cart_inv c → within_stock P c → within_stock P (run_ops c ops).
Proof.
  intros Hsame. revert c. induction ops as [|op ops IH]; intros c Hops Hinv Hin; [done|].
  simpl. apply IH.
  - intros p Hp. apply Hops. destruct op; simpl; rewrite ?elem_of_cons; auto.
  - by apply run_op_inv.
  - apply run_op_within_stock; [done| |done..].
    intros p qty ->. apply Hops. simpl. apply list_elem_of_here.
Qed.

(** X5. If the products that are added under one id always come with
    the same stock (as products of one catalog do), then after any
    calls of [add_item], [update_quantity], [remove_item] and [clear]
    on a cart that started empty no line holds more than the stock of
    its product. *)
Theorem cart_never_exceeds_stock (ops : list CartOp) :
  (∀ p p', p ∈ added_products ops → p' ∈ added_products ops →
           id p = id p' → stock p = stock p') →
  Forall (λ item, quantity item ≤ stock (product item))
    (dict_values (items (run_ops empty_cart ops))).
Proof.
  intros Hsame.
  assert (within_stock (added_products ops) (run_ops empty_cart ops)) as Hin.
  { apply run_ops_within_stock; [done|done| |constructor].
    split; simpl; [apply NoDup_nil_2|constructor]. }
  eapply Forall_impl; [exact Hin|]. by intros item [_ ?].
Qed.

End more_cart_facts.

(** ** Orders and the catalog *)

Section more_order_facts.
Context `{PyRuntime}.

Lemma validate_non_empty_string_Some (v v' : string) :
  validate_non_empty_string v = Some v' → truthy v' = true ∧ strip v' = v'.
Proof.
  unfold validate_non_empty_string.
  destruct (truthy v); simpl; [|done].
  destruct (truthy (strip v)) eqn:Hv; simpl; [|done].
  intros [= <-]. by rewrite strip_idem.
Qed.

(** X6. [create_from_cart] never touches a cart that exists: every
    cart of the store is afterwards what it was, whether an order is
    made or not. On an empty cart it raises and the store is as it was.
    And every order that is made has a cart that is not empty, a name
    and a city that are not empty and have nothing to strip, and a total
    that is not negative. *)
Theorem create_from_cart_keeps_store (s : Store) (k : Clock) (l : loc)
    (customer_name customer_city : string) :
  (∀ l' c', s !! l' = Some c' →
     (create_from_cart s k l customer_name customer_city).2 !! l' = Some c') ∧
  (is_empty (deref s l) = true →
     create_from_cart s k l customer_name customer_city = (inl EmptyCartError, s)) ∧
  (∀ o, (create_from_cart s k l customer_name customer_city).1 = inr o →
     is_empty (deref (create_from_cart s k l customer_name customer_city).2 (order_cart o))
       = false ∧
     truthy (order_customer_name o) = true ∧
     strip (order_customer_name o) = order_customer_name o ∧
     truthy (order_customer_city o) = true ∧
     strip (order_customer_city o) = order_customer_city o ∧
     flt (total o) fzero = false).
Proof.
  unfold create_from_cart, deepcopy.
  destruct (is_empty (deref s l)) eqn:Hempty; simpl; [by split_and!|].
  split_and!; [|done|].
  - intros l' c' Hl'. rewrite lookup_insert_ne; [done|].
    intros <-. by rewrite fresh_loc in Hl'.
  - unfold Order_init, validate_cart_not_empty, validate_total.
    destruct (is_empty (deref _ (fresh (dom s)))) eqn:Hcopy;
      destruct (validate_non_empty_string customer_name) as [n|] eqn:Hn;
      destruct (validate_non_empty_string customer_city) as [y|] eqn:Hy;
      destruct (flt (get_total (deref s l)) fzero) eqn:Ht;
      intros o; simpl; try done.
    intros [= <-]. simpl.
    apply validate_non_empty_string_Some in Hn as [? ?], Hy as [? ?].
    split_and!; [done..|]. by apply round2_nonneg.
Qed.

End more_order_facts.

Section more_catalog_facts.
Context `{PyRuntime}.

Lemma dict_elem_get {V} (k : string) (v : V) (d : pydict V) :
  NoDup (dict_keys d) → (k, v) ∈ d → dict_get k d = Some v.
Proof.
  unfold dict_keys. induction d as [|[k0 v0] d IH].
  - intros _ Hin. by apply elem_of_nil in Hin.
  - rewrite fmap_cons. cbn [dict_get fst].
    intros [Hk0 Hnd]%NoDup_cons [Heq|Hin]%elem_of_cons.
    + injection Heq as -> ->. by rewrite decide_True.
    + destruct (decide (k0 = k)) as [->|Hne]; [|by apply IH].
      destruct Hk0. apply list_elem_of_fmap. by exists (k, v).
Qed.

(** in a catalog keyed by id, a product is found under its own id *)
Lemma catalog_get_by_id (self : CatalogService) (p : Product) :
  catalog_wf self → p ∈ get_all_products self →
  get_by_id self (id p) = Some p ∧ truthy (id p) = true.
Proof.
  intros [Hnd Hkeys]. unfold get_all_products, get_by_id, dict_values.
  intros ([k p'] & -> & Hin)%list_elem_of_fmap. simpl.
  rewrite Forall_forall in Hkeys. destruct (Hkeys _ Hin) as [Hk Hid]. simpl in *.
  subst k. split; [|done]. by apply dict_elem_get.
Qed.

Lemma get_by_id_elem (self : CatalogService) (k : string) (p : Product) :
  get_by_id self k = Some p → p ∈ get_all_products self.
Proof. apply dict_get_values. Qed.

Lemma get_by_name_elem (self : CatalogService) (nm : string) (p : Product) :
  get_by_name self nm = Some p → p ∈ get_all_products self.
Proof.
  unfold get_by_name. intros [Hin _]%find_some. by apply list_elem_of_In.
Qed.

(** X7. Whatever [search_products] returns is a product of the catalog
    whose relevance is at least the threshold, and it is returned as
    well for every lower threshold: raising [min_similarity] only takes
    results away. *)
Theorem search_products_threshold (self : CatalogService) (query : string)
    (m1 m2 : float) (p : Product) :
  fge m2 m1 = true → p ∈ search_products self query m2 →
  p ∈ get_all_products self ∧
  fge (best_ratio (strip (lower query)) p) m2 = true ∧
  p ∈ search_products self query m1.
Proof.
  unfold search_products. intros Hm.
  destruct (truthy (strip (lower query))); simpl; [|by intros ?%elem_of_nil].
  rewrite !(omap_keyed (best_ratio (strip (lower query)))).
  rewrite !(proj1 (sort_desc_keyed _ _)), !list_elem_of_filter.
  intros [Hp Hin]. split_and!; [done|done| |done].
  unfold fge in *. apply negb_true_iff in Hm, Hp. apply negb_true_iff.
  by apply (flt_negtrans _ m2).
Qed.




End more_catalog_facts.

(** ** Product references *)

Section more_reference_facts.
Context `{PyRuntime}.

Lemma _find_product_elem (env : Env) (a : ActionData) (st : ConversationState) (p : Product) :
  _find_product env a st = inr (Some p) → p ∈ get_all_products (catalog env).
Proof.
  unfold _find_product.
  repeat case_match; intros [= Hp]; subst;
    eauto using get_by_id_elem, get_by_name_elem.
Qed.

(** X9. [_find_product] makes no product up: whatever the reference,
    a product it returns is a product of the catalog, and in a catalog
    keyed by id it is the one [get_by_id] returns for its id. *)
Theorem _find_product_from_catalog (env : Env) (a : ActionData) (st : ConversationState)
    (p : Product) :
  catalog_wf (catalog env) → _find_product env a st = inr (Some p) →
  p ∈ get_all_products (catalog env) ∧ get_by_id (catalog env) (id p) = Some p.
Proof.
  intros Hwf Hp. apply _find_product_elem in Hp. split; [done|].
  by destruct (catalog_get_by_id _ _ Hwf Hp).
Qed.

(** X10. After a manage-cart turn that resolved a product, a reference
    of type [last] resolves to that same product. *)
Theorem last_reference_resolves (env : Env) (st : ConversationState) (w : World)
    (a : ActionData) (p : Product) :
  catalog_wf (catalog env) →
  (_extract_cart_action env (get_last_user_message st) st w).1 = inr (Some a) →
  _find_product env a st = inr (Some p) →
  last_product_id (state_of (manage_cart_node env st w)) = Some (id p) ∧
  ∀ a', ref_type (product_ref a') = "last" →
        _find_product env a' (state_of (manage_cart_node env st w)) = inr (Some p).
Proof.
  intros Hwf Hex Hp.
  destruct (catalog_get_by_id _ _ Hwf (_find_product_elem _ _ _ _ Hp)) as [Hget Hid].
  assert (last_product_id (state_of (manage_cart_node env st w)) = Some (id p)) as Hlast.
  { unfold manage_cart_node.
    destruct (_extract_cart_action env (get_last_user_message st) st w) as [ex w'].
    simpl in Hex. subst ex. rewrite Hp.
    by destruct (_execute_cart_action a p _ (store w')) as [[e|text] s']. }
  split; [done|]. intros a' Ha'. unfold _find_product.
  by rewrite Ha', Hlast, Hid, Hget.
Qed.

(** X11. After the listing of [browse_products_node], a reference of
    type [index] whose value reads as the number [n] resolves to the
    [n]-th product listed, counting from one, in a catalog keyed by id;
    a number below one or beyond the listing resolves to nothing. *)
Theorem index_reference_resolves (env : Env) (st : ConversationState) (w : World)
    (a : ActionData) (n : Z) :
  catalog_wf (catalog env) →
  ref_type (product_ref a) = "index" →
  py_int (ref_value (product_ref a)) = Some n →
  (∀ (i : nat) p, get_all_products (catalog env) !! i = Some p → n = Z.of_nat i + 1 →
     _find_product env a (state_of (browse_products_node env st w)) = inr (Some p)) ∧
  (n < 1 ∨ Z.of_nat (length (get_all_products (catalog env))) < n →
     _find_product env a (state_of (browse_products_node env st w)) = inr None).
Proof.
  intros Hwf Htype Hn. unfold _find_product, browse_products_node. rewrite Htype, Hn.
  simpl. split.
  - intros i p Hi ->. rewrite bool_decide_eq_true_2 by lia.
    rewrite length_fmap.
    pose proof (lookup_lt_Some _ _ _ Hi) as Hlt.
    rewrite bool_decide_eq_true_2 by lia.
    replace (Z.to_nat (Z.of_nat i + 1 - 1)) with i by lia.
    rewrite list_lookup_fmap, Hi. simpl.
    assert (p ∈ get_all_products (catalog env)) as Hp.
    { apply list_elem_of_lookup. by exists i. }
    by destruct (catalog_get_by_id _ _ Hwf Hp) as [-> _].
  - intros [Hlow|Hhigh].
    + by rewrite bool_decide_eq_false_2 by lia.
    + destruct (bool_decide (0 ≤ n - 1)); [|done].
      rewrite length_fmap. by rewrite bool_decide_eq_false_2 by lia.
Qed.

End more_reference_facts.

(** X12. [UserIntent] reads back exactly the values it writes: a
    string is the value of an intent if and only if [UserIntent(...)]
    returns that intent for it, and any other string is refused. *)
Theorem UserIntent_of_value_iff (s : string) (i : UserIntent.t) :
  UserIntent.of_value s = Some i ↔ s = UserIntent.value i.
Proof.
  split.
  - unfold UserIntent.of_value. simpl.
    repeat (case_bool_decide; [by intros [= <-]|]). done.
  - intros ->. by destruct i.
Qed.

(** ** The nodes and a turn *)

Section more_node_facts.
Context `{PyRuntime}.

Lemma detect_intent_node_returns (env : Env) (st : ConversationState) (w : World) :
  length (messages st) ≠ 1%nat →
  ∃ i w', detect_intent_node env st w = Returns (set_current_intent st i) w' ∧
          store w' = store w ∧
          (llm_calls w' = llm_calls w ∨ ∃ req, llm_calls w' = llm_calls w ++ [req]).
Proof.
  intros Hlen. unfold detect_intent_node. rewrite bool_decide_eq_false_2 by done.
  destruct (negb (truthy (get_last_user_message st))).
  { eexists _, _. split_and!; [reflexivity|done|by left]. }
  destruct (is_checkout_stage (stage st) && _).
  { eexists _, _. split_and!; [reflexivity|done|by left]. }
  simpl. destruct (llm env _) as [e|text].
  - eexists _, _. split_and!; [reflexivity|done|right; by eexists].
  - destruct (UserIntent.of_value _);
      eexists _, _; (split_and!; [reflexivity|done|right; by eexists]).
Qed.

(** X13. After the first message, [detect_intent_node] never raises
    and changes nothing of the state but the intent; it leaves the carts
    alone and calls the model at most once. When the model fails, the
    intent is UNKNOWN, or CHECKOUT by the override that makes no call. *)
Theorem detect_intent_node_only_sets_intent (env : Env) (st : ConversationState) (w : World) :
  length (messages st) ≠ 1%nat →
  let r := detect_intent_node env st w in
  raises r = None ∧
  (∃ i, state_of r = set_current_intent st i) ∧
  store (world_of r) = store w ∧
  (llm_calls (world_of r) = llm_calls w ∨
   ∃ req, llm_calls (world_of r) = llm_calls w ++ [req]) ∧
  ((∀ req, ∃ e, llm env req = LlmError e) →
   current_intent (state_of r) = UserIntent.UNKNOWN ∨
   (current_intent (state_of r) = UserIntent.CHECKOUT ∧
    llm_calls (world_of r) = llm_calls w)).
Proof.
  intros Hlen r. subst r. unfold detect_intent_node.
  rewrite bool_decide_eq_false_2 by done.
  destruct (negb (truthy (get_last_user_message st))).
  { split_and!; [done|by eexists|done|by left|by left]. }
  destruct (is_checkout_stage (stage st) && _).
  { split_and!; [done|by eexists|done|by left|by right]. }
  simpl. destruct (llm env _) as [e|text] eqn:Hllm.
  - split_and!; [done|by eexists|done|right; by eexists|by left].
  - assert (∀ i, (∀ req, ∃ e, llm env req = LlmError e) → i = UserIntent.UNKNOWN) as Hno.
    { intros i Hfail. destruct (Hfail (IntentDetection (get_last_user_message st)
        (_build_context env st w))) as [e He]. congruence. }
    destruct (UserIntent.of_value _);
      (split_and!; [done|by eexists|done|right; by eexists|]);
      intros Hfail; left; simpl; by apply Hno.
Qed.

(** X14. The first message of a session is answered with the welcome
    text. The log that comes back holds the user's text twice, once as
    it was sent and once more as [detect_intent] returned it and the
    graph added it, and then the welcome; the stage is SHOPPING, the
    intent UNKNOWN, no handler ran, and neither the carts nor the model
    were touched. *)
Theorem first_message_gets_welcome (env : Env) (st : ConversationState) (w : World)
    (text : string) :
  messages st = [] →
  let r := send_message env st w text in
  raises r = None ∧
  messages (state_of r) = [HumanMessage text; HumanMessage text; AIMessage welcome_msg] ∧
  stage (state_of r) = ConversationStage.SHOPPING ∧
  current_intent (state_of r) = UserIntent.UNKNOWN ∧
  cart (state_of r) = cart st ∧ world_of r = w.
Proof.
  intros Hm r. subst r.
  unfold send_message, run_conversation_turn, detect_intent_node, hears, write_state.
  simpl. rewrite Hm. simpl. by split_and!.
Qed.

Lemma checkout_node_messages (env : Env) (st : ConversationState) (w : World) :
  messages (state_of (checkout_node env st w)) = messages st ∨
  ∃ text, messages (state_of (checkout_node env st w)) = messages st ++ [AIMessage text].
Proof.
  unfold checkout_node, _collect_customer_name, _complete_order.
  destruct (is_empty _); [right; by eexists|].
  destruct (unset (customer_name st)).
  { destruct (existsb _ _); [right; by eexists|].
    destruct (_extract_name_from_message _); right; by eexists. }
  destruct (unset (customer_city st)); [|by left].
  destruct (create_from_cart _ _ _ _ _) as [[e|o] s]; [by left|right; by eexists].
Qed.

Lemma run_conversation_turn_messages (env : Env) (st : ConversationState) (w : World) :
  raises (run_conversation_turn env st w) = None →
  turn_logs (messages st) (messages (state_of (run_conversation_turn env st w))).
Proof.
  unfold run_conversation_turn, turn_logs.
  destruct (decide (length (messages st) = 1%nat)) as [Hlen|Hlen].
  { unfold detect_intent_node. rewrite bool_decide_eq_true_2 by done.
    intros _. right. left. by eexists. }
  destruct (detect_intent_node_returns env st w Hlen) as (i & w' & -> & _).
  set (st1 := write_state st (set_current_intent st i)).
  assert (messages st1 = messages st ++ messages st) as Hst1 by done.
  assert (current_intent st1 = i) as Hi by done.
  clearbody st1.
  assert (∀ h, h ≠ checkout →
            raises (match run_handler h env st1 w' with
                    | Returns returned w0 => Returns (write_state st1 returned) w0
                    | Raises e st0 w0 => Raises e st0 w0
                    end) = None →
            ∃ answer,
              messages (state_of (match run_handler h env st1 w' with
                                  | Returns returned w0 => Returns (write_state st1 returned) w0
                                  | Raises e st0 w0 => Raises e st0 w0
                                  end))
              = (messages st ++ messages st) ++ (messages st ++ messages st) ++
                [AIMessage answer]) as Hother.
  { intros h Hh _.
    destruct (handler_replies_once h env st1 w' Hh) as (answer & Hret & Hmsg).
    exists answer. destruct (run_handler h env st1 w') as [st2 w2|e st2 w2]; [|done].
    simpl in *. by rewrite Hmsg, Hst1. }
  unfold route_by_intent. rewrite Hi.
  destruct i; cbn [handler_of]; intros Hret.
  - right. right. right. by apply (Hother browse).
  - right. right. right. by apply (Hother manage_cart).
  - right. right. right. by apply (Hother view_cart).
  - cbn [run_handler] in *.
    pose proof (checkout_node_messages env st1 w') as Hcheckout.
    destruct (checkout_node env st1 w') as [st2 w2|e st2 w2]; [|done].
    simpl in *. destruct Hcheckout as [->|[answer ->]]; rewrite Hst1.
    + right. right. by left.
    + right. right. right. by exists answer.
  - right. right. right. by apply (Hother out_of_context).
  - by left.
  - by left.
Qed.

(** X15. A message sent to the bot only ever adds to the log. With
    [m] the log with the user's text behind it, the log that comes back
    is [m] itself when the turn raises, and otherwise [m] twice (no
    handler ran) or four times (a handler ran: each node returns the
    log it was given and the graph adds it to the one it holds), with
    at most one message of the assistant at its end. So [m] is always
    the beginning of the new log. *)
Theorem send_message_appends (env : Env) (st : ConversationState) (w : World) (text : string) :
  let r := send_message env st w text in
  let m := messages st ++ [HumanMessage text] in
  (∃ rest, messages (state_of r) = m ++ rest) ∧
  (raises r = None → turn_logs m (messages (state_of r))) ∧
  (raises r ≠ None → messages (state_of r) = m).
Proof.
  intros r m. subst r.
  assert (raises (send_message env st w text) = None →
          turn_logs m (messages (state_of (send_message env st w text)))) as Hlogs.
  { unfold send_message.
    pose proof (run_conversation_turn_messages env (hears st text) w) as Hturn.
    destruct (run_conversation_turn env (hears st text) w) as [st' w'|e st' w']; [|done].
    intros _. by apply Hturn. }
  assert (raises (send_message env st w text) ≠ None →
          messages (state_of (send_message env st w text)) = m) as Hraise.
  { unfold send_message.
    by destruct (run_conversation_turn env (hears st text) w) as [st' w'|e st' w']. }
  split_and!; [|done|done].
  destruct (raises (send_message env st w text)) as [e|] eqn:Hr.
  - exists []. rewrite Hraise by done. by rewrite app_nil_r.
  - destruct (Hlogs eq_refl) as [->|[[answer ->]|[->|[answer ->]]]].
    + by eexists.
    + by eexists.
    + eexists. symmetry. apply (assoc_L (++)).
    + eexists. symmetry. apply (assoc_L (++)).
Qed.

(** X16. What the handlers leave alone. No handler changes which cart
    the session has, its id, or the intent. Only the checkout handler
    changes the name, the city or the order. Listing the products,
    showing the cart and the out-of-context answer leave every cart of
    the store as it was, and listing, showing the cart and checkout never
    call the model. *)
Theorem handlers_leave_the_rest (env : Env) (st : ConversationState) (w : World) (h : Handler) :
  let r := run_handler h env st w in
  cart (state_of r) = cart st ∧ session_id (state_of r) = session_id st ∧
  current_intent (state_of r) = current_intent st ∧
  (h ≠ checkout →
   customer_name (state_of r) = customer_name st ∧
   customer_city (state_of r) = customer_city st ∧ order (state_of r) = order st) ∧
  (h ≠ manage_cart → h ≠ checkout → store (world_of r) = store w) ∧
  (h ≠ manage_cart → h ≠ out_of_context → llm_calls (world_of r) = llm_calls w).
Proof.
  intros r. subst r. destruct h; simpl.
  - by split_and!.
  - unfold manage_cart_node, _send_cart_error_message.
    destruct (_extract_cart_action env (get_last_user_message st) st w) as [[msg|[a|]] w'];
      [by split_and!| |by split_and!].
    destruct (_find_product env a st) as [msg|[prod|]]; [by split_and!| |by split_and!].
    by destruct (_execute_cart_action a prod _ (store w')) as [[err|answer] s']; split_and!.
  - by split_and!.
  - unfold checkout_node, _collect_customer_name, _complete_order.
    destruct (is_empty _); [by split_and!|].
    destruct (unset (customer_name st)).
    { destruct (existsb _ _); [by split_and!|].
      by destruct (_extract_name_from_message _); split_and!. }
    destruct (unset (customer_city st)); [|by split_and!].
    unfold create_from_cart, deepcopy. simpl.
    destruct (is_empty _); [by split_and!|].
    by destruct (Order_init _ _ _ _ _ _ _) as [e|o]; split_and!.
  - unfold out_of_context_node. simpl. by split_and!.
Qed.

End more_node_facts.

(** ** Checkout *)

Section more_checkout_facts.
Context `{PyRuntime}.

Lemma create_from_cart_made (s s' : Store) (k : Clock) (l : loc)
    (customer_name customer_city : string) (o : Order) :
  create_from_cart s k l customer_name customer_city = (inr o, s') →
  is_empty (deref s l) = false ∧ order_cart o = fresh (dom s) ∧
  s' = <[fresh (dom s) := deref s l]> s.
Proof.
  unfold create_from_cart, deepcopy.
  destruct (is_empty (deref s l)) eqn:Hempty; [done|].
  unfold Order_init, validate_cart_not_empty, validate_total.
  destruct (is_empty (deref _ (fresh (dom s))));
    destruct (validate_non_empty_string customer_name);
    destruct (validate_non_empty_string customer_city);
    destruct (flt (get_total (deref s l)) fzero); try done.
  by intros [= <- <-].
Qed.

Lemma deref_not_empty (s : Store) (l : loc) :
  is_empty (deref s l) = false → l ∈ dom s.
Proof.
  unfold deref. intros Hne. apply elem_of_dom.
  destruct (s !! l) as [c|]; [by eexists|]. done.
Qed.

(** X17. The checkout handler stores an order only by completing the
    purchase: whenever the order of the state changes, the handler has
    returned, the stage is COMPLETED, one message was appended, the cart
    of the session is empty, and the cart the order holds is another
    object, with the lines the session had. *)
Theorem checkout_node_order_stored (env : Env) (st : ConversationState) (w : World) :
  order (state_of (checkout_node env st w)) ≠ order st →
  let r := checkout_node env st w in
  raises r = None ∧ stage (state_of r) = ConversationStage.COMPLETED ∧
  (∃ text, messages (state_of r) = messages st ++ [AIMessage text]) ∧
  is_empty (session_cart r) = true ∧
  ∃ o, order (state_of r) = Some o ∧ order_cart o ≠ cart (state_of r) ∧
       deref (store (world_of r)) (order_cart o) = deref (store w) (cart st) ∧
       is_empty (deref (store w) (cart st)) = false.
Proof.
  unfold checkout_node, _collect_customer_name, _complete_order, session_cart.
  destruct (is_empty (deref (store w) (cart st))) eqn:Hempty; [done|].
  destruct (unset (customer_name st)).
  { destruct (existsb _ _); [done|]. by destruct (_extract_name_from_message _). }
  destruct (unset (customer_city st)); [|done].
  cbn [cart set_customer_city customer_name customer_city].
  destruct (create_from_cart _ _ _ _ _) as [[e|o] s] eqn:Hmade; [done|].
  intros _. apply create_from_cart_made in Hmade as (_ & Ho & ->).
  assert (fresh (dom (store w)) ≠ cart st) as Hfresh.
  { intros Heq. apply deref_not_empty in Hempty. rewrite <- Heq in Hempty.
    by apply is_fresh in Hempty. }
  simpl. split_and!; [done|done|by eexists| |].
  - unfold deref. by rewrite lookup_insert_eq.
  - exists o. split_and!; [done|by rewrite Ho| |done].
    unfold deref at 1. rewrite lookup_insert_ne by (by rewrite Ho).
    rewrite Ho. by rewrite lookup_insert_eq.
Qed.

(** X18. With products in the cart and a name and a city on record
    (what [is_cart_ready_for_checkout] and [is_order_info_complete]
    test), the checkout handler returns the state and the store exactly
    as it got them: no message, no order, no change of stage. *)
Theorem checkout_node_returns_state_as_is (env : Env) (st : ConversationState) (w : World) :
  is_cart_ready_for_checkout (store w) st = true →
  is_order_info_complete st = true →
  checkout_node env st w = Returns st w.
Proof.
  unfold is_cart_ready_for_checkout, is_order_info_complete.
  intros Hcart Hinfo. apply negb_true_iff in Hcart.
  destruct (customer_name st) as [nm|] eqn:Hnm; [|done].
  destruct (customer_city st) as [city|] eqn:Hcity; [|done].
  apply andb_true_iff in Hinfo as [Hn%bool_decide_eq_true Hc%bool_decide_eq_true].
  assert (∀ s, (0 < String.length (strip s))%nat → truthy s = true) as Hlen.
  { intros s Hs. apply truthy_strip. destruct (strip s); [simpl in Hs; lia|done]. }
  unfold checkout_node. rewrite Hcart, Hnm, Hcity. simpl.
  by rewrite (Hlen _ Hn), (Hlen _ Hc).
Qed.

Lemma _extract_name_from_message_clean (message nm : string) :
  _extract_name_from_message message = Some nm → truthy nm = true ∧ strip nm = nm.
Proof.
  unfold _extract_name_from_message.
  destruct (List.find _ _) as [prefix|].
  - destruct (truthy (strip _)) eqn:Ht; [|done]. intros [= <-]. by rewrite strip_idem.
  - destruct (truthy (strip message)) eqn:Ht; [|done]. intros [= <-]. by rewrite strip_idem.
Qed.

Lemma checkout_node_name_wf (env : Env) (st : ConversationState) (w : World) :
  name_wf st → name_wf (state_of (checkout_node env st w)).
Proof.
  intros Hwf. unfold checkout_node, _collect_customer_name, _complete_order.
  destruct (is_empty _); [done|].
  destruct (unset (customer_name st)).
  { destruct (existsb _ _); [done|].
    destruct (_extract_name_from_message _) as [nm|] eqn:Hnm; [|done].
    intros nm' [= <-]. by apply _extract_name_from_message_clean in Hnm. }
  destruct (unset (customer_city st)); [|done].
  by destruct (create_from_cart _ _ _ _ _) as [[e|o] s].
Qed.

Lemma run_handler_customer_name (h : Handler) (env : Env) (st : ConversationState) (w : World) :
  h ≠ checkout → customer_name (state_of (run_handler h env st w)) = customer_name st.
Proof.
  intros Hh. destruct h; [| | |done|]; simpl; [done| |done|].
  - unfold manage_cart_node, _send_cart_error_message.
    destruct (_extract_cart_action env (get_last_user_message st) st w) as [[msg|[a|]] w'];
      [done| |done].
    destruct (_find_product env a st) as [msg|[prod|]]; [done| |done].
    by destruct (_execute_cart_action a prod _ (store w')) as [[err|answer] s'].
  - unfold out_of_context_node. by simpl.
Qed.

Lemma run_conversation_turn_name_wf (env : Env) (st : ConversationState) (w : World) :
  name_wf st → name_wf (state_of (run_conversation_turn env st w)).
Proof.
  intros Hwf. unfold run_conversation_turn.
  destruct (decide (length (messages st) = 1%nat)) as [Hlen|Hlen].
  { unfold detect_intent_node. by rewrite bool_decide_eq_true_2 by done. }
  destruct (detect_intent_node_returns env st w Hlen) as (i & w' & -> & _).
  set (st1 := write_state st (set_current_intent st i)).
  assert (name_wf st1) as Hwf1 by done.
  assert (current_intent st1 = i) as Hi by done.
  clearbody st1.
  assert (∀ r, name_wf (state_of r) →
            name_wf (state_of (match r with
                               | Returns returned w0 => Returns (write_state st1 returned) w0
                               | Raises e st0 w0 => Raises e st0 w0
                               end))) as Hwrite.
  { by intros [st2 w2|e st2 w2]. }
  assert (∀ h, h ≠ checkout → name_wf (state_of (run_handler h env st1 w'))) as Hother.
  { unfold name_wf. intros h Hh nm. rewrite run_handler_customer_name by done. apply Hwf1. }
  unfold route_by_intent. rewrite Hi.
  destruct i; cbn [handler_of]; try done; apply Hwrite;
    first [by apply Hother | by apply checkout_node_name_wf].
Qed.

Lemma send_message_name_wf (env : Env) (st : ConversationState) (w : World) (text : string) :
  name_wf st → name_wf (state_of (send_message env st w text)).
Proof.
  intros Hwf. unfold send_message.
  pose proof (run_conversation_turn_name_wf env (hears st text) w Hwf) as Hturn.
  by destruct (run_conversation_turn env (hears st text) w).
Qed.

(** X19. Whatever is said in a session and whatever the model
    answers, a customer name the bot has on record is not empty and has
    no whitespace around it. *)
Theorem chat_customer_name_clean (env : Env) (texts : list string) (nm : string) :
  customer_name (state_of (chat env texts)) = Some nm →
  truthy nm = true ∧ strip nm = nm.
Proof.
  assert (name_wf (state_of (chat env texts))) as Hwf; [|by apply Hwf].
  unfold chat, create_initial_state.
  induction texts as [|text texts IH] using rev_ind; [done|].
  rewrite foldl_app. simpl. by apply send_message_name_wf.
Qed.

End more_checkout_facts.

(** ** The cart helpers of the manage-cart node *)

Section more_manage_cart_facts.
Context `{PyRuntime}.

(** X20. A manage-cart turn that does not get to a product (the model
    fails, its reply does not decode, or the reference names nothing)
    returns with the stage SHOPPING and leaves every cart, and the
    product the session last spoke of, as they were; the model was
    called once. *)
Theorem manage_cart_node_without_product (env : Env) (st : ConversationState) (w : World) :
  (∀ a p, (_extract_cart_action env (get_last_user_message st) st w).1 = inr (Some a) →
          _find_product env a st ≠ inr (Some p)) →
  let r := manage_cart_node env st w in
  raises r = None ∧ stage (state_of r) = ConversationStage.SHOPPING ∧
  store (world_of r) = store w ∧
  last_product_id (state_of r) = last_product_id st ∧
  ∃ req, llm_calls (world_of r) = llm_calls w ++ [req].
Proof.
  intros Hnone r. subst r. unfold manage_cart_node, _send_cart_error_message.
  assert (store (_extract_cart_action env (get_last_user_message st) st w).2 = store w ∧
          ∃ req, llm_calls (_extract_cart_action env (get_last_user_message st) st w).2
                 = llm_calls w ++ [req]) as [Hstore Hcalls].
  { unfold _extract_cart_action. simpl.
    destruct (llm env _); simpl; (split; [done|by eexists]). }
  destruct (_extract_cart_action env (get_last_user_message st) st w) as [[msg|[a|]] w'];
    simpl in *; [by split_and!| |by split_and!].
  specialize (Hnone a).
  destruct (_find_product env a st) as [msg|[prod|]]; [by split_and!| |by split_and!].
  by destruct (Hnone prod).
Qed.

(** X21. [_remove_from_cart] on a product that is in the cart, for
    any quantity asked for. It takes the quantity off the line, or the
    whole line when that many or more are asked for, and answers with a
    text. It raises in one case only: a negative quantity that would
    take the line beyond the stock of its product; then
    [update_quantity] raises its stock error and the cart is as it was.
    So a quantity that is not negative, on a line within its stock,
    never raises. The other lines of the cart and the other carts are
    as they were in every case. *)
Theorem _remove_from_cart_reduces (s : Store) (l : loc) (prod : Product) (qty : Z)
    (item : CartItem) :
  get_item (deref s l) (id prod) = Some item →
  let r := _remove_from_cart s l prod qty in
  let beyond := bool_decide (qty < quantity item) &&
                bool_decide (stock (product item) < quantity item - qty) in
  (if beyond
   then r.1 = inl (InsufficientStock (product item)) ∧ deref r.2 l = deref s l
   else (∃ text, r.1 = inr text) ∧
        has_product (deref r.2 l) (id prod) = bool_decide (qty < quantity item) ∧
        quantity_in_cart (deref r.2 l) (id prod) = Z.max 0 (quantity item - qty)) ∧
  (0 ≤ qty → quantity item ≤ stock (product item) → beyond = false) ∧
  (∀ k, k ≠ id prod → get_item (deref r.2 l) k = get_item (deref s l) k) ∧
  (∀ l', l' ≠ l → r.2 !! l' = s !! l').
Proof.
  intros Hget r beyond. subst r beyond.
  assert (dict_in (id prod) (items (deref s l)) = true) as Hhas.
  { unfold dict_in. unfold get_item in Hget. by rewrite Hget. }
  assert (quantity_in_cart (deref s l) (id prod) = quantity item) as Hq.
  { unfold quantity_in_cart. by rewrite Hget. }
  assert (∀ c, deref (<[l:=c]> s) l = c) as Hl.
  { intros c. unfold deref. by rewrite lookup_insert_eq. }
  unfold get_item in Hget.
  unfold _remove_from_cart, has_product. rewrite Hhas, Hq. cbn [negb].
  destruct (decide (quantity item ≤ qty)) as [Hall|Hall].
  - rewrite (bool_decide_eq_true_2 (quantity item ≤ qty)) by done.
    rewrite (bool_decide_eq_false_2 (qty < quantity item)) by lia. cbn [andb].
    unfold call, remove_item. rewrite Hhas.
    cbn [negb raised cart_after then_say fst snd]. rewrite Hl.
    unfold quantity_in_cart, get_item, dict_in. cbn [items]. rewrite dict_get_del_eq.
    split_and!.
    + by eexists.
    + done.
    + lia.
    + done.
    + intros k Hk. by apply dict_get_del_ne.
    + intros l' Hl'. by rewrite lookup_insert_ne.
  - rewrite (bool_decide_eq_false_2 (quantity item ≤ qty)) by done.
    rewrite (bool_decide_eq_true_2 (qty < quantity item)) by lia. cbn [andb].
    unfold call, update_quantity. rewrite Hget.
    rewrite (bool_decide_eq_false_2 (quantity item - qty < 0)) by lia.
    rewrite (bool_decide_eq_false_2 (quantity item - qty = 0)) by lia.
    unfold is_available.
    destruct (decide (quantity item - qty ≤ stock (product item))) as [Hstock|Hstock].
    + rewrite (bool_decide_eq_true_2 (quantity item - qty ≤ stock (product item))) by done.
      rewrite (bool_decide_eq_false_2 (stock (product item) < quantity item - qty)) by lia.
      cbn [negb raised cart_after then_say fst snd]. rewrite Hl.
      unfold set_quantity. rewrite Hget.
      unfold quantity_in_cart, get_item, dict_in. cbn [items]. rewrite dict_get_set_eq.
      cbn [quantity].
      split_and!.
      * by eexists.
      * done.
      * lia.
      * done.
      * intros k Hk. by apply dict_get_set_ne.
      * intros l' Hl'. by rewrite lookup_insert_ne.
    + rewrite (bool_decide_eq_false_2 (quantity item - qty ≤ stock (product item))) by done.
      rewrite (bool_decide_eq_true_2 (stock (product item) < quantity item - qty)) by lia.
      cbn [negb raised cart_after then_say fst snd]. rewrite Hl.
      split_and!.
      * done.
      * done.
      * intros ? ?. lia.
      * done.
      * intros l' Hl'. by rewrite lookup_insert_ne.
Qed.

(** X22. Asking to add, or to set, more than the stock of the product
    is answered with the stock warning, and no cart is touched. *)
Theorem _execute_cart_action_over_stock (a : ActionData) (prod : Product)
    (st : ConversationState) (s : Store) :
  action a ≠ "remove" → 0 ≤ stock prod → stock prod < action_quantity a →
  _execute_cart_action a prod st s = (inr (only_in_stock prod), s).
Proof.
  intros Ha Hs Hq. unfold _execute_cart_action.
  rewrite bool_decide_eq_false_2 by done.
  case_bool_decide.
  - by apply _update_cart_quantity_over_stock.
  - by apply _add_to_cart_over_stock.
Qed.

End more_manage_cart_facts.

(** ** Cleaning the reply of the model *)

Section more_json_facts.
Context `{PyRuntime}.

Lemma from_first_starts (c : Ascii.ascii) (s r : string) :
  from_first c s = Some r → ∃ t, r = String c t.
Proof.
  induction s as [|a s IH]; cbn [from_first]; [done|].
  destruct (decide (a = c)) as [->|]; [|done]. intros [= <-]. by eexists.
Qed.

Lemma upto_last_ends (c : Ascii.ascii) (s r : string) :
  upto_last c s = Some r → ∃ body, r = body +:+ String c "".
Proof.
  revert r. induction s as [|a s IH]; cbn [upto_last]; [done|]. intros r.
  destruct (upto_last c s) as [r'|].
  - intros [= <-]. destruct (IH r' eq_refl) as [body ->]. by exists (String a body).
  - destruct (decide (a = c)) as [->|]; [|done]. intros [= <-]. by exists "".
Qed.

Lemma from_first_app (c : Ascii.ascii) (pre t : string) :
  from_first c pre = None → from_first c (pre +:+ String c t) = Some (String c t).
Proof.
  induction pre as [|a pre IH].
  - intros _. change ("" +:+ String c t) with (String c t). cbn [from_first].
    by rewrite decide_True.
  - change (String a pre +:+ String c t) with (String a (pre +:+ String c t)).
    cbn [from_first]. destruct (decide (a = c)); [done|]. apply IH.
Qed.

Lemma upto_last_app (c : Ascii.ascii) (body post : string) :
  upto_last c post = None →
  upto_last c (body +:+ String c post) = Some (body +:+ String c "").
Proof.
  intros Hpost. induction body as [|a body IH].
  - change ("" +:+ String c post) with (String c post). cbn [upto_last].
    rewrite Hpost. by rewrite decide_True.
  - change (String a body +:+ String c post) with (String a (body +:+ String c post)).
    cbn [upto_last]. by rewrite IH.
Qed.

Lemma prefix_app_l (a b s : string) :
  String.prefix (a +:+ b) s = true → String.prefix a s = true.
Proof.
  revert s. induction a as [|c a IH]; intros s; [by destruct s|].
  change (String c a +:+ b) with (String c (a +:+ b)).
  destruct s as [|d s]; cbn [String.prefix]; [done|].
  destruct (Ascii.ascii_dec c d); [apply IH|done].
Qed.

Lemma contains_app_l (a b s : string) :
  contains (a +:+ b) s = true → contains a s = true.
Proof.
  induction s as [|d s IH]; cbn [contains].
  - rewrite !orb_false_r. apply prefix_app_l.
  - intros [Hp|Hc]%orb_true_iff; apply orb_true_iff;
      [left; by apply (prefix_app_l a b)|right; by apply IH].
Qed.

Lemma search_braces_shape (content m : string) :
  search_braces content = Some m →
  ∃ body, m = String open_brace (body +:+ String close_brace "").
Proof.
  unfold search_braces.
  destruct (from_first open_brace content) as [r|] eqn:Hfirst; [|done].
  destruct (from_first_starts _ _ _ Hfirst) as [t ->].
  destruct (upto_last close_brace t) as [r|] eqn:Hlast; [|done].
  destruct (upto_last_ends _ _ _ Hlast) as [body ->].
  intros [= <-]. by exists body.
Qed.

(** X23. What [_clean_llm_json_response] returns either begins with an
    opening brace and ends with a closing brace, or holds no opening
    brace with a closing brace behind it at all; this with or without
    code fences in the reply. *)
Theorem _clean_llm_json_response_shape (content : string) :
  (∃ body, _clean_llm_json_response content
           = String open_brace (body +:+ String close_brace "")) ∨
  search_braces (_clean_llm_json_response content) = None.
Proof.
  unfold _clean_llm_json_response.
  set (inner := if contains json_fence (strip content) then _ else _).
  destruct (search_braces inner) as [m|] eqn:Hm; [left|by right].
  by apply search_braces_shape in Hm.
Qed.

(** X24. A reply without code fences that holds an object in braces
    is cut down to the object: the text before its opening brace and
    the text behind its last closing brace are dropped, and what is
    between them, braces included, is returned as it is. *)
Theorem _clean_llm_json_response_trims (content pre body post : string) :
  strip content = pre +:+ String open_brace (body +:+ String close_brace post) →
  contains fence (strip content) = false →
  from_first open_brace pre = None → upto_last close_brace post = None →
  _clean_llm_json_response content = String open_brace (body +:+ String close_brace "").
Proof.
  intros Hcontent Hfence Hpre Hpost. unfold _clean_llm_json_response.
  assert (contains json_fence (strip content) = false) as ->.
  { destruct (contains json_fence (strip content)) eqn:Hjson; [|done].
    change json_fence with (fence +:+ "json") in Hjson.
    apply contains_app_l in Hjson. congruence. }
  rewrite Hfence, Hcontent. unfold search_braces.
  rewrite (from_first_app _ _ _ Hpre). by rewrite (upto_last_app _ _ _ Hpost).
Qed.

End more_json_facts.

(** ** A turn the model fails on *)

Section more_turn_facts.
Context `{PyRuntime}.

(** X25. When the call of the model for the intent fails, or its
    answer names no intent, the turn ends without any handler, so the
    user's message gets no answer: the state comes back with the intent
    UNKNOWN and with the log it had twice over (the log
    [detect_intent] returned, added to the one the graph held), and
    nothing else changed; the carts are as they were and the one call
    is on record. *)
Theorem run_conversation_turn_unclassified (env : Env) (st : ConversationState) (w : World) :
  length (messages st) ≠ 1%nat →
  truthy (get_last_user_message st) = true →
  is_checkout_stage (stage st) && (unset (customer_name st) || unset (customer_city st))
    = false →
  match llm env (IntentDetection (get_last_user_message st) (_build_context env st w)) with
  | LlmError _ => True
  | LlmContent text => UserIntent.of_value (lower (upper (strip text))) = None
  end →
  run_conversation_turn env st w
    = Returns (set_messages (set_current_intent st UserIntent.UNKNOWN)
                 (messages st ++ messages st))
        {| store := store w;
           llm_calls := llm_calls w ++
             [IntentDetection (get_last_user_message st) (_build_context env st w)] |}.
Proof.
  intros Hlen Hmsg Hover Hllm. unfold run_conversation_turn, detect_intent_node.
  rewrite bool_decide_eq_false_2 by done. rewrite Hmsg, Hover. simpl.
  destruct (llm env _) as [e|text]; [done|]. by rewrite Hllm.
Qed.

End more_turn_facts.

(** ** The further statements at work on the sample shop *)

Section more_witnesses.
Import Decimal Sample MoreSample.

Lemma add_item_adds_to_count_witness :
  let c' := cart_after (add_item two_lines cuaderno 2) in
  add_item two_lines cuaderno 2 = Done c' ∧
  get_item_count c' = get_item_count two_lines + 2.
Proof.
  intros c'.
  assert (add_item two_lines cuaderno 2 = Done c') as Hadd by reflexivity.
  split; [done|].
  exact (proj1 (add_item_adds_to_count two_lines cuaderno 2 c' Hadd)).
Defined.

Lemma update_quantity_sets_quantity_witness :
  let c' := cart_after (update_quantity two_lines "prod_001" 5) in
  update_quantity two_lines "prod_001" 5 = Done c' ∧ 5 ≠ 0 ∧
  quantity_in_cart c' "prod_001" = 5.
Proof.
  intros c'.
  assert (update_quantity two_lines "prod_001" 5 = Done c') as Hupd by reflexivity.
  assert (5 ≠ 0) as Hqty by lia.
  split_and!; [done..|].
  exact (proj1 (update_quantity_sets_quantity two_lines "prod_001" 5 c' Hupd Hqty)).
Defined.

Lemma add_item_then_remove_item_witness :
  let c1 := cart_after (add_item three_notebooks camiseta 2) in
  has_product three_notebooks (id camiseta) = false ∧
  add_item three_notebooks camiseta 2 = Done c1 ∧
  remove_item c1 (id camiseta) = Done three_notebooks.
Proof.
  intros c1.
  assert (has_product three_notebooks (id camiseta) = false) as Hnew by reflexivity.
  assert (add_item three_notebooks camiseta 2 = Done c1) as Hadd by reflexivity.
  split_and!; [done..|].
  exact (add_item_then_remove_item three_notebooks camiseta 2 c1 Hnew Hadd).
Defined.

Lemma is_empty_iff_no_items_witness :
  quantities_positive two_lines ∧
  (is_empty two_lines = true ↔ get_item_count two_lines = 0).
Proof.
  assert (quantities_positive two_lines) as Hpos by (repeat constructor).
  split; [done|].
  exact (is_empty_iff_no_items two_lines Hpos).
Defined.

Lemma cart_never_exceeds_stock_witness :
  let ops := [AddItem cuaderno 3; AddItem camiseta 2; AddItem cuaderno 3;
              UpdateQuantity "prod_001" 50] in
  (∀ p p', p ∈ added_products ops → p' ∈ added_products ops →
           id p = id p' → stock p = stock p') ∧
  Forall (λ item, quantity item ≤ stock (product item))
    (dict_values (items (run_ops empty_cart ops))).
Proof.
  intros ops.
  assert (∀ p p', p ∈ added_products ops → p' ∈ added_products ops →
                  id p = id p' → stock p = stock p') as Hsame.
  { assert (added_products ops = [cuaderno; camiseta; cuaderno]) as -> by reflexivity.
    intros p p' Hp Hp' Hid.
    rewrite !elem_of_cons, elem_of_nil in Hp, Hp'.
    destruct Hp as [->|[->|[->|[]]]], Hp' as [->|[->|[->|[]]]];
      first [reflexivity | discriminate Hid]. }
  split; [done|].
  exact (cart_never_exceeds_stock ops Hsame).
Defined.

Lemma search_products_threshold_witness :
  fge (ftenths 4) (ftenths 3) = true ∧
  cuaderno ∈ search_products shop " Cuaderno" (ftenths 4) ∧
  cuaderno ∈ search_products shop " Cuaderno" (ftenths 3).
Proof.
  assert (fge (ftenths 4) (ftenths 3) = true) as Hm by reflexivity.
  assert (cuaderno ∈ search_products shop " Cuaderno" (ftenths 4)) as Hin.
  { assert (search_products shop " Cuaderno" (ftenths 4) = [cuaderno]) as -> by reflexivity.
    apply list_elem_of_here. }
  split_and!; [done..|].
  exact (proj2 (proj2 (search_products_threshold shop " Cuaderno" (ftenths 3) (ftenths 4)
                         cuaderno Hm Hin))).
Defined.

Lemma _find_product_from_catalog_witness :
  let a := {| action := "add"; action_quantity := 1;
              product_ref := {| ref_type := "name"; ref_value := "cuaderno" |} |} in
  let st := state_of (chat env ["hola"]) in
  catalog_wf (catalog env) ∧ _find_product env a st = inr (Some cuaderno) ∧
  get_by_id (catalog env) (id cuaderno) = Some cuaderno.
Proof.
  intros a st.
  assert (catalog_wf (catalog env)) as Hwf.
  { split; [|by repeat constructor].
    apply (bool_decide_unpack _). reflexivity. }
  assert (_find_product env a st = inr (Some cuaderno)) as Hfound by reflexivity.
  split_and!; [done..|].
  exact (proj2 (_find_product_from_catalog env a st cuaderno Hwf Hfound)).
Defined.

Lemma last_reference_resolves_witness :
  let before := chat env ["hola"] in
  let st := hears (state_of before) "anade 3 cuadernos" in
  let w := world_of before in
  let a := {| action := "add"; action_quantity := 3;
              product_ref := {| ref_type := "name"; ref_value := "Cuaderno" |} |} in
  catalog_wf (catalog env) ∧
  (_extract_cart_action env (get_last_user_message st) st w).1 = inr (Some a) ∧
  _find_product env a st = inr (Some cuaderno) ∧
  last_product_id (state_of (manage_cart_node env st w)) = Some (id cuaderno).
Proof.
  intros before st w a.
  assert (catalog_wf (catalog env)) as Hwf.
  { split; [|by repeat constructor].
    apply (bool_decide_unpack _). reflexivity. }
  assert ((_extract_cart_action env (get_last_user_message st) st w).1 = inr (Some a))
    as Hex by reflexivity.
  assert (_find_product env a st = inr (Some cuaderno)) as Hfound by reflexivity.
  split_and!; [done..|].
  exact (proj1 (last_reference_resolves env st w a cuaderno Hwf Hex Hfound)).
Defined.

Lemma index_reference_resolves_witness :
  let before := chat env ["hola"] in
  let st := hears (state_of before) "que hay" in
  let w := world_of before in
  let a := {| action := "add"; action_quantity := 1;
              product_ref := {| ref_type := "index"; ref_value := "2" |} |} in
  catalog_wf (catalog env) ∧ ref_type (product_ref a) = "index" ∧
  py_int (ref_value (product_ref a)) = Some 2 ∧
  _find_product env a (state_of (browse_products_node env st w)) = inr (Some cuaderno).
Proof.
  intros before st w a.
  assert (catalog_wf (catalog env)) as Hwf.
  { split; [|by repeat constructor].
    apply (bool_decide_unpack _). reflexivity. }
  assert (ref_type (product_ref a) = "index") as Htype by reflexivity.
  assert (py_int (ref_value (product_ref a)) = Some 2) as Hint by reflexivity.
  split_and!; [done..|].
  exact (proj1 (index_reference_resolves env st w a 2 Hwf Htype Hint) 1%nat cuaderno
           eq_refl eq_refl).
Defined.

Lemma detect_intent_node_only_sets_intent_witness :
  let before := chat env ["hola"] in
  let st := hears (state_of before) "anade 3 cuadernos" in
  let w := world_of before in
  length (messages st) ≠ 1%nat ∧
  store (world_of (detect_intent_node env st w)) = store w.
Proof.
  intros before st w.
  assert (length (messages st) ≠ 1%nat) as Hlen by (intros Hlen; discriminate Hlen).
  split; [done|].
  exact (proj1 (proj2 (proj2 (detect_intent_node_only_sets_intent env st w Hlen)))).
Defined.

Lemma first_message_gets_welcome_witness :
  let st := (create_initial_state ∅ "session").1 in
  let w := {| store := (create_initial_state ∅ "session").2; llm_calls := [] |} in
  messages st = [] ∧
  messages (state_of (send_message env st w "hola"))
    = [HumanMessage "hola"; HumanMessage "hola"; AIMessage welcome_msg].
Proof.
  intros st w.
  assert (messages st = []) as Hnew by reflexivity.
  split; [done|].
  exact (proj1 (proj2 (first_message_gets_welcome env st w "hola" Hnew))).
Defined.

Lemma checkout_node_order_stored_witness :
  let st := hears (state_of awaiting_city) "Madrid" in
  let w := world_of awaiting_city in
  order (state_of (checkout_node env st w)) ≠ order st ∧
  stage (state_of (checkout_node env st w)) = ConversationStage.COMPLETED.
Proof.
  intros st w.
  assert (order (state_of (checkout_node env st w)) ≠ order st) as Hnew.
  { assert (bool_decide (is_Some (order (state_of (checkout_node env st w)))) = true)
      as Hsome by reflexivity.
    intros Heq. rewrite Heq in Hsome. change (false = true) in Hsome.
    discriminate Hsome. }
  split; [done|].
  exact (proj1 (proj2 (checkout_node_order_stored env st w Hnew))).
Defined.

Lemma checkout_node_returns_state_as_is_witness :
  let st := hears (state_of shopping_again) "quiero comprar" in
  let w := world_of shopping_again in
  is_cart_ready_for_checkout (store w) st = true ∧ is_order_info_complete st = true ∧
  checkout_node env st w = Returns st w.
Proof.
  intros st w.
  assert (is_cart_ready_for_checkout (store w) st = true) as Hcart by reflexivity.
  assert (is_order_info_complete st = true) as Hinfo by reflexivity.
  split_and!; [done..|].
  exact (checkout_node_returns_state_as_is env st w Hcart Hinfo).
Defined.

Lemma chat_customer_name_clean_witness :
  let texts := ["hola"; "anade 3 cuadernos"; "quiero comprar"; "  Juan "] in
  customer_name (state_of (chat env texts)) = Some "Juan" ∧
  truthy "Juan" = true ∧ strip "Juan" = "Juan".
Proof.
  intros texts.
  assert (customer_name (state_of (chat env texts)) = Some "Juan") as Hname by reflexivity.
  split; [done|].
  exact (chat_customer_name_clean env texts "Juan" Hname).
Defined.

Lemma manage_cart_node_without_product_witness :
  let before := chat env ["hola"] in
  let st := hears (state_of before) "anade algo" in
  let w := world_of before in
  (∀ a p, (_extract_cart_action env (get_last_user_message st) st w).1 = inr (Some a) →
          _find_product env a st ≠ inr (Some p)) ∧
  store (world_of (manage_cart_node env st w)) = store w.
Proof.
  intros before st w.
  assert (∀ a p, (_extract_cart_action env (get_last_user_message st) st w).1
                 = inr (Some a) → _find_product env a st ≠ inr (Some p)) as Hnone.
  { assert ((_extract_cart_action env (get_last_user_message st) st w).1 = inr None)
      as -> by reflexivity.
    intros a p Hex. discriminate Hex. }
  split; [done|].
  exact (proj1 (proj2 (proj2 (manage_cart_node_without_product env st w Hnone)))).
Defined.

Lemma _remove_from_cart_reduces_witness :
  let s : Store := {[1%positive := two_lines]} in
  let item := {| product := cuaderno; quantity := 3 |} in
  get_item (deref s 1%positive) (id cuaderno) = Some item ∧
  quantity_in_cart (deref (_remove_from_cart s 1%positive cuaderno 2).2 1%positive)
    (id cuaderno) = 1 ∧
  (_remove_from_cart s 1%positive cuaderno (-3)).1 = inl (InsufficientStock cuaderno) ∧
  deref (_remove_from_cart s 1%positive cuaderno (-3)).2 1%positive = two_lines.
Proof.
  intros s item.
  assert (get_item (deref s 1%positive) (id cuaderno) = Some item) as Hget by reflexivity.
  split_and!; [done| | |].
  - exact (proj2 (proj2 (proj1 (_remove_from_cart_reduces s 1%positive cuaderno 2 item
                                  Hget)))).
  - exact (proj1 (proj1 (_remove_from_cart_reduces s 1%positive cuaderno (-3) item Hget))).
  - exact (proj2 (proj1 (_remove_from_cart_reduces s 1%positive cuaderno (-3) item Hget))).
Defined.

Lemma _execute_cart_action_over_stock_witness :
  let a := {| action := "update"; action_quantity := 6;
              product_ref := {| ref_type := "name"; ref_value := "Cuaderno" |} |} in
  let st := state_of shopping_again in
  let s := store (world_of shopping_again) in
  action a ≠ "remove" ∧ 0 ≤ stock cuaderno ∧ stock cuaderno < action_quantity a ∧
  _execute_cart_action a cuaderno st s = (inr (only_in_stock cuaderno), s).
Proof.
  intros a st s.
  assert (action a ≠ "remove") as Hact by (intros Heq; discriminate Heq).
  assert (0 ≤ stock cuaderno) as Hstock by (apply Z.leb_le; reflexivity).
  assert (stock cuaderno < action_quantity a) as Hqty by (apply Z.ltb_lt; reflexivity).
  split_and!; [done..|].
  exact (_execute_cart_action_over_stock a cuaderno st s Hact Hstock Hqty).
Defined.

Lemma _clean_llm_json_response_trims_witness :
  let content := "  Claro: {action: add, quantity: 3} listo. " in
  strip content = "Claro: " +:+ String open_brace ("action: add, quantity: 3" +:+
                                                     String close_brace " listo.") ∧
  contains fence (strip content) = false ∧
  from_first open_brace "Claro: " = None ∧ upto_last close_brace " listo." = None ∧
  _clean_llm_json_response content = "{action: add, quantity: 3}".
Proof.
  intros content.
  assert (strip content = "Claro: " +:+ String open_brace ("action: add, quantity: 3" +:+
                                                             String close_brace " listo."))
    as Hcontent by reflexivity.
  assert (contains fence (strip content) = false) as Hfence by reflexivity.
  assert (from_first open_brace "Claro: " = None) as Hpre by reflexivity.
  assert (upto_last close_brace " listo." = None) as Hpost by reflexivity.
  split_and!; [done..|].
  exact (_clean_llm_json_response_trims content "Claro: " "action: add, quantity: 3"
           " listo." Hcontent Hfence Hpre Hpost).
Defined.

Lemma run_conversation_turn_unclassified_witness :
  let before := chat env ["hola"] in
  let st := hears (state_of before) "buenas tardes" in
  let w := world_of before in
  length (messages st) ≠ 1%nat ∧ truthy (get_last_user_message st) = true ∧
  is_checkout_stage (stage st) && (unset (customer_name st) || unset (customer_city st))
    = false ∧
  messages (state_of (run_conversation_turn env st w)) = messages st ++ messages st.
Proof.
  intros before st w.
  assert (length (messages st) ≠ 1%nat) as Hlen by (intros Hlen; discriminate Hlen).
  assert (truthy (get_last_user_message st) = true) as Hmsg by reflexivity.
  assert (is_checkout_stage (stage st) &&
          (unset (customer_name st) || unset (customer_city st)) = false) as Hover
    by reflexivity.
  assert (match llm env (IntentDetection (get_last_user_message st)
                           (_build_context env st w)) with
          | LlmError _ => True
          | LlmContent text => UserIntent.of_value (lower (upper (strip text))) = None
          end) as Hllm by reflexivity.
  split_and!; [done..|].
  by rewrite (run_conversation_turn_unclassified env st w Hlen Hmsg Hover Hllm).
Defined.

End more_witnesses.
